(** * The evaluation-and-aggregation engine of the website checker

    A shallow embedding of [src/services/playwrightService.js]
    ([analyzeUrl], [takeScreenshots], [performEvaluation],
    [getPerformanceMetrics]) and of the criterion registry of
    [src/config/evaluationCriteria.js] and its extension.

    The browser, the network, the storage bucket and the wall clock are
    outside the program.  They are represented by an abstract state [E]
    and a record of oracles over it ([Browser]); every [await] on the
    outside world asks an oracle, which answers with a value or with a
    thrown error and moves the outside state.  The program itself is
    written in a state-and-exception monad over the [World] it can
    change: the page (outside state and viewport), the service's
    [isInitialized] flag, the browser contexts that are open, and the
    logger's output. *)

From Stdlib Require Import ZArith List String Ascii Bool Lia Floats Uint63.
From Stdlib Require Import DecimalString.
Import ListNotations.

Open Scope string_scope.
Open Scope Z_scope.

(** ** JavaScript values the service handles *)

(** A field of an [AppError]'s [details] object. *)
Inductive Detail :=
| DNum (n : Z)
| DStr (s : string).

(** Thrown values.  Playwright and the storage client reject with [Error]
    objects; the service itself throws [AppError]
    (middleware/errorHandler.js), an [Error] with a status code, a code
    and a details object. *)
Inductive JsError :=
| Error (message : string)
| AppError (message : string) (statusCode : Z) (code : string)
           (details : list (string * Detail)).

Definition message (e : JsError) : string :=
  match e with
  | Error m => m
  | AppError m _ _ _ => m
  end.

(** [error instanceof AppError] *)
Definition instanceofAppError (e : JsError) : bool :=
  match e with
  | Error _ => false
  | AppError _ _ _ _ => true
  end.

(** [s.includes(sub)] *)
Definition includes (s sub : string) : bool :=
  match String.index 0 sub s with
  | Some _ => true
  | None => false
  end.

(** Template-literal rendering of an integral number. *)
Definition showZ (n : Z) : string := NilZero.string_of_int (Z.to_int n).

(** ** Numbers: the score is computed in IEEE-754 double precision *)

(** An integral JS number as a double.  The counters of the service are
    small natural numbers, far below 2^53, where the conversion is
    exact. *)
Definition num (n : Z) : float := PrimFloat.of_uint63 (Uint63.of_Z n).

(** [Math.round(x)]: the integer floor(x + 1/2), computed exactly from the
    mantissa and exponent of the double (ties go toward +infinity).  The
    argument is finite wherever the service calls it; NaN and the
    infinities, which have no integer value, are mapped to 0. *)
Definition Math_round (x : float) : Z :=
  match Prim2SF x with
  | S754_finite s m e =>
      let n := if s then Z.neg m else Z.pos m in
      if 0 <=? e then n * 2 ^ e
      else (2 * n + 2 ^ (- e)) / 2 ^ (- e + 1)
  | _ => 0
  end.

(** [totalItems > 0 ? Math.round((passedItems / totalItems) * 100) : 0] *)
Definition score_of (passedItems totalItems : Z) : Z :=
  if totalItems >? 0
  then Math_round (PrimFloat.mul (PrimFloat.div (num passedItems) (num totalItems))
                                 (num 100))
  else 0.

(** ** Data model *)

(** Statuses a criterion's [check] returns (every [status:] expression of
    the registry evaluates to one of these four strings). *)
Inductive CheckStatus := Pass | Fail | Warning | Info.

(** Status of an evaluation result: a check's status, or 'error' when the
    check threw. *)
Inductive Status :=
| Checked (s : CheckStatus)
| StatusError.

(** [status === 'pass'] *)
Definition is_pass (s : Status) : bool :=
  match s with
  | Checked Pass => true
  | _ => false
  end.

(** What a [check] resolves to.  [recommendations] may be absent (the
    contrast check's own catch branch returns none). *)
Record CheckOutcome := mkOutcome {
  co_status : CheckStatus;
  co_details : string;
  co_recommendations : option (list string)
}.

Record EvaluationResult := mkResult {
  er_category : string;
  er_id : string;
  er_name : string;
  er_description : string;
  er_impact : string;
  er_status : Status;
  er_details : string;
  er_recommendations : list string;
  er_checkTime : Z
}.

Record Viewport := mkViewport {
  vp_name : string;
  vp_width : Z;
  vp_height : Z
}.

Record ScreenshotResult := mkShot {
  shot_viewport : string;
  shot_width : Z;
  shot_height : Z;
  shot_error : option string;
  shot_gcs_url : option string;
  shot_size_bytes : Z;
  shot_filename : option string
}.

Record Categories := mkCategories {
  cat_accessibility : Z;
  cat_performance : Z;
  cat_seo : Z;
  cat_security : Z;
  cat_usability : Z
}.

Record Summary := mkSummary {
  total : Z;
  passed : Z;
  failed : Z;
  score : Z;
  categories : Categories
}.

Record Analysis := mkAnalysis {
  items : list EvaluationResult;
  summary : Summary
}.

Record Metrics := mkMetrics {
  loadTime : Z;
  domContentLoaded : Z;
  firstContentfulPaint : Z;
  largestContentfulPaint : Z;
  domElements : Z;
  networkRequests : Z;
  documentSize : Z;
  metrics_error : option string
}.

Record AnalysisRun := mkRun {
  success : bool;
  run_url : string;
  analysisId : string;
  timestamp : string;
  screenshots : list ScreenshotResult;
  analysis : Analysis;
  performance : Metrics;
  processingTime : Z
}.

(** The navigation response as far as the service reads it. *)
Record Response := mkResponse {
  ok : bool;
  status : Z;
  statusText : string
}.

(** [options] of [analyzeUrl]. *)
Record Options := mkOptions {
  opt_timeout : option Z;
  opt_waitFor : option string
}.

(** [options.timeout || 30000] *)
Definition timeout_or_default (o : Options) : Z :=
  match opt_timeout o with
  | Some t => if t =? 0 then 30000 else t
  | None => 30000
  end.

(** Truthiness of [options.waitFor]: present and not the empty string. *)
Definition waitFor_selector (o : Options) : option string :=
  match opt_waitFor o with
  | Some "" => None
  | other => other
  end.

(** ** Logger output *)

Inductive Level := LError | LWarn | LInfo | LDebug.

Record LogEntry := mkLog {
  log_level : Level;
  log_text : string
}.

(** ** What happened on the page (ghost record)

    The embedding keeps, next to the logger's output, a record of two
    page events, so that statements about when navigation started, which
    check was called with which arguments, and under which viewport a
    capture ran, can be made about a whole run. *)
Inductive Event :=
| Navigating (startedAt : Z)
| Captured (name : string) (at_viewport : Z * Z)
| Invoked (id : string) (timing : option Z) (at_viewport : Z * Z).

Definition is_invocation (ev : Event) : bool :=
  match ev with
  | Invoked _ _ _ => true
  | _ => false
  end.

Definition is_capture (ev : Event) : bool :=
  match ev with
  | Captured _ _ => true
  | _ => false
  end.

(** ** The state-and-exception monad *)

Inductive Outcome (A : Type) :=
| Ok (a : A)
| Throw (e : JsError).

Arguments Ok {A} a.
Arguments Throw {A} e.

(** A computation over a state [S] that returns or throws. *)
Definition SE (S A : Type) : Type := S -> Outcome A * S.

Definition ret {S A} (a : A) : SE S A := fun s => (Ok a, s).

Definition throw {S A} (e : JsError) : SE S A := fun s => (Throw e, s).

Definition bind {S A B} (m : SE S A) (k : A -> SE S B) : SE S B :=
  fun s =>
    match m s with
    | (Ok a, s') => k a s'
    | (Throw e, s') => (Throw e, s')
    end.

(** [try { m } catch (error) { h error }]: the state changes made before
    the throw are kept, as in JavaScript. *)
Definition try_catch {S A} (m : SE S A) (h : JsError -> SE S A) : SE S A :=
  fun s =>
    match m s with
    | (Ok a, s') => (Ok a, s')
    | (Throw e, s') => h e s'
    end.

Declare Scope se_scope.
Delimit Scope se_scope with se.

Notation "x <- m ;; k" := (bind m (fun x => k))
  (at level 100, m at next level, right associativity) : se_scope.
Notation "m ;; k" := (bind m (fun _ => k))
  (at level 100, right associativity) : se_scope.

Open Scope se_scope.

(** ** The outside world *)

Section Service.

(** State of everything outside the program: the browser and its page's
    document, the network, the storage bucket, the wall clock. *)
Variable E : Type.

(** The live page as a check sees it: the outside state and the viewport
    size last set on the page. *)
Record Page := mkPage {
  outside : E;
  viewport : Z * Z
}.

(** An awaited call on the outside world: it reads the page, answers or
    throws, and moves the outside state. *)
Definition Oracle (A : Type) : Type := Page -> Outcome A * E.

(** Computations of a criterion's [check]: they act on the page only. *)
Definition P (A : Type) : Type := SE Page A.

Record Browser := mkBrowser {
  chromium_launch : Oracle unit;
  browser_newContext : Z -> Oracle unit;
  context_newPage : Oracle unit;
  context_close : Oracle unit;
  page_goto : string -> Z -> Oracle (option Response);
  page_waitForSelector : string -> Z -> Oracle unit;
  page_waitForLoadState : string -> Z -> Oracle unit;
  page_setViewportSize : Z -> Z -> Oracle unit;
  page_waitForTimeout : Z -> Oracle unit;
  (** [page.screenshot(...)]; the answer is the buffer's length *)
  page_screenshot : Oracle Z;
  (** [gcsService.uploadScreenshot(buffer, filename)] *)
  gcs_uploadScreenshot : Z -> string -> Oracle string;
  (** the [page.evaluate] of [getPerformanceMetrics] *)
  page_performance : Oracle Metrics;
  (** [page.$(selector) !== null]; selectors are written without their
      inner quotes *)
  page_has : string -> Oracle bool;
  (** a [page.evaluate] of a boolean expression, named by its source text *)
  page_evaluate_bool : string -> Oracle bool;
  (** a [page.$$eval] that counts elements, named by selector and by what
      it counts *)
  page_count : string -> string -> Oracle Z;
  (** the body of a criterion's [check] that is not spelled out below,
      by criterion id: reads of the document that end in a CheckOutcome *)
  dom_check : string -> Oracle CheckOutcome;
  Date_now : E -> Z;
  toISOString : E -> string;
  uuidv4 : E -> string * E
}.

Variable B : Browser.

(** ** The state of the service *)

Record World := mkWorld {
  page : Page;
  isInitialized : bool;
  (** browser contexts created and not yet closed *)
  openContexts : nat;
  (** logger output, oldest first (metadata objects are not kept) *)
  logs : list LogEntry;
  (** ghost record of check invocations and captures, oldest first *)
  trace : list Event
}.

Definition M (A : Type) : Type := SE World A.

Definition ask {A} (o : Oracle A) : P A :=
  fun p => let (r, e) := o p in (r, mkPage e (viewport p)).

Definition liftP {A} (m : P A) : M A :=
  fun w =>
    let (r, p) := m (page w) in
    (r, mkWorld p (isInitialized w) (openContexts w) (logs w) (trace w)).

Definition await {A} (o : Oracle A) : M A := liftP (ask o).

Definition logger (l : Level) (text : string) : M unit :=
  fun w => (Ok tt, mkWorld (page w) (isInitialized w) (openContexts w)
                           ((logs w ++ [mkLog l text])%list) (trace w)).

(** [logger.playwrightAction(action, url, data)] *)
Definition playwrightAction (action : string) : M unit :=
  logger LDebug ("🎭 Playwright " ++ action).

(** [logger.performanceMetric(metric, value, unit)] *)
Definition performanceMetric (metric : string) : M unit :=
  logger LInfo ("📊 Performance: " ++ metric).

Definition record (ev : Event) : M unit :=
  fun w => (Ok tt, mkWorld (page w) (isInitialized w) (openContexts w)
                           (logs w) ((trace w ++ [ev])%list)).

Definition now : M Z := fun w => (Ok (Date_now B (outside (page w))), w).

Definition now_page : P Z := fun p => (Ok (Date_now B (outside p)), p).

(** [page.setViewportSize({width, height})]: on success the page has the
    new size. *)
Definition setViewportSize (width height : Z) : P unit :=
  fun p =>
    match page_setViewportSize B width height p with
    | (Ok _, e) => (Ok tt, mkPage e (width, height))
    | (Throw err, e) => (Throw err, mkPage e (viewport p))
    end.

(** [browser.newContext(...)]: on success one more context is open. *)
Definition newContext (timeout : Z) : M unit :=
  fun w =>
    match await (browser_newContext B timeout) w with
    | (Ok _, w') => (Ok tt, mkWorld (page w') (isInitialized w')
                                    (S (openContexts w')) (logs w') (trace w'))
    | (Throw err, w') => (Throw err, w')
    end.

(** [context.close()]: on success the context is released. *)
Definition closeContext : M unit :=
  fun w =>
    match await (context_close B) w with
    | (Ok _, w') => (Ok tt, mkWorld (page w') (isInitialized w')
                                    (Nat.pred (openContexts w')) (logs w') (trace w'))
    | (Throw err, w') => (Throw err, w')
    end.

(** ** The criterion registry *)

Record Criterion := mkCriterion {
  id : string;
  name : string;
  description : string;
  impact : string;
  (** [check(page, startTime)]; the second argument is [None] when the
      caller passes the page only *)
  check : option Z -> P CheckOutcome
}.

(** A criterion whose check reads the document only. *)
Definition reading (i n d imp : string) : Criterion :=
  mkCriterion i n d imp (fun _ => ask (dom_check B i)).

(** perf-001: [loadTime = Date.now() - startTime].  Called without a start
    time, [loadTime] is NaN, both comparisons are false and the template
    prints NaN. *)
Definition perf_001 : Criterion :=
  mkCriterion "perf-001" "Page Load Time" "Page loads within 3 seconds" "critical"
    (fun startTime =>
       t <- now_page ;;
       match startTime with
       | Some t0 =>
           let loadTime := t - t0 in
           ret (mkOutcome
                  (if loadTime <? 3000 then Pass
                   else if loadTime <? 5000 then Warning else Fail)
                  ("Page loaded in " ++ showZ loadTime ++ "ms")
                  (Some (if 3000 <=? loadTime
                         then ["Optimize images and compress assets";
                               "Minimize HTTP requests";
                               "Use CDN for static assets";
                               "Enable browser caching"]
                         else [])))
       | None => ret (mkOutcome Fail "Page loaded in NaNms" (Some []))
       end).

(** use-001: resizes the live page to 375x667 and returns without setting
    the size back. *)
Definition use_001 : Criterion :=
  mkCriterion "use-001" "Mobile Responsive" "Site is mobile responsive" "critical"
    (fun _ =>
       setViewportSize 375 667 ;;
       ask (page_waitForTimeout B 1000) ;;
       hasViewportMeta <- ask (page_has B "meta[name=viewport]") ;;
       horizontalScroll <-
         ask (page_evaluate_bool B "document.body.scrollWidth > window.innerWidth") ;;
       ret (mkOutcome
              (if hasViewportMeta && negb horizontalScroll then Pass else Fail)
              ("Viewport meta: " ++ (if hasViewportMeta then "true" else "false")
               ++ ", Horizontal scroll: "
               ++ (if horizontalScroll then "true" else "false"))
              (Some ((if negb hasViewportMeta then ["Add viewport meta tag"] else [])
                     ++ (if horizontalScroll
                         then ["Fix horizontal scrolling on mobile"] else []))%list))).

Definition use_002 : Criterion :=
  mkCriterion "use-002" "Navigation Structure" "Clear and consistent navigation" "major"
    (fun _ =>
       navElements <- ask (page_count B "nav, [role=navigation]" "length") ;;
       menuItems <- ask (page_count B "nav a, nav button" "length") ;;
       ret (mkOutcome
              (if (navElements >? 0) && (menuItems >? 0) then Pass else Warning)
              (showZ navElements ++ " navigation elements with "
               ++ showZ menuItems ++ " menu items")
              (Some (if navElements =? 0
                     then ["Add semantic navigation structure"] else [])))).

Definition use_003 : Criterion :=
  mkCriterion "use-003" "Touch Target Size" "Touch targets are at least 44x44 pixels" "major"
    (fun _ =>
       smallTargets <-
         ask (page_count B "button, a, input[type=button], input[type=submit]"
                         "smaller than 44x44") ;;
       totalTargets <-
         ask (page_count B "button, a, input[type=button], input[type=submit]"
                         "length") ;;
       ret (mkOutcome
              (if smallTargets =? 0 then Pass else Warning)
              (showZ smallTargets ++ "/" ++ showZ totalTargets
               ++ " targets are smaller than 44x44px")
              (Some (if smallTargets >? 0
                     then ["Increase size of touch targets to at least 44x44 pixels"]
                     else [])))).

(** [Object.entries(fullEvaluationCriteria)]: for each category the base
    criteria followed by the extended ones, in insertion order. *)
Definition fullEvaluationCriteria : list (string * list Criterion) :=
  [ ("accessibility",
     [ reading "a11y-001" "Color Contrast Ratio"
               "Text has sufficient color contrast ratio (minimum 4.5:1)" "critical";
       reading "a11y-002" "Alt Text for Images"
               "All images have descriptive alt text" "major";
       reading "a11y-003" "Heading Structure"
               "Proper heading hierarchy (h1-h6)" "major";
       reading "a11y-004" "ARIA Labels"
               "Interactive elements have appropriate ARIA labels" "major";
       reading "a11y-005" "Keyboard Navigation"
               "All interactive elements are keyboard accessible" "critical";
       reading "a11y-006" "Focus Indicators"
               "Visible focus indicators for keyboard navigation" "major";
       reading "a11y-007" "Form Labels"
               "All form inputs have associated labels" "critical";
       reading "a11y-008" "Link Purpose"
               "Links have clear and descriptive text" "major";
       reading "a11y-009" "Error Identification"
               "Form errors are clearly identified" "major";
       reading "a11y-010" "Language Declaration"
               "Page language is declared" "minor";
       reading "a11y-011" "Skip Links"
               "Skip navigation links are provided" "minor";
       reading "a11y-012" "Color Independence"
               "Information not conveyed by color alone" "major";
       reading "a11y-013" "Text Resize"
               "Text can be resized up to 200% without loss of functionality" "minor";
       reading "a11y-014" "Audio/Video Controls"
               "Media elements have proper controls" "major";
       reading "a11y-015" "ARIA Landmarks"
               "Page uses ARIA landmarks appropriately" "minor" ]);
    ("performance",
     [ perf_001;
       reading "perf-002" "Image Optimization" "Images are properly optimized" "major";
       reading "perf-003" "CSS Optimization" "CSS is optimized and minified" "minor";
       reading "perf-004" "HTTP Requests" "Minimize number of HTTP requests" "major";
       reading "perf-005" "Gzip Compression" "Text resources are compressed" "major";
       reading "perf-006" "Browser Caching" "Static resources have cache headers" "major";
       reading "perf-007" "Render Blocking Resources"
               "Minimize render-blocking CSS and JavaScript" "major";
       reading "perf-008" "CDN Usage" "Static assets served from CDN" "minor" ]);
    ("seo",
     [ reading "seo-001" "Title Tag" "Page has unique and descriptive title" "critical";
       reading "seo-002" "Meta Description" "Page has compelling meta description" "major";
       reading "seo-003" "Canonical URL" "Page has canonical URL specified" "major";
       reading "seo-004" "Open Graph Tags"
               "Open Graph meta tags for social sharing" "minor" ]);
    ("security",
     [ reading "sec-001" "HTTPS Usage" "Site uses HTTPS protocol" "critical";
       reading "sec-002" "Security Headers"
               "Essential security headers are present" "major";
       reading "sec-003" "Mixed Content"
               "No mixed content (HTTP resources on HTTPS page)" "major" ]);
    ("usability", [ use_001; use_002; use_003 ]) ].

(** ** [performEvaluation] *)

(** The loop's mutable locals [results], [totalItems], [passedItems]. *)
Record Acc := mkAcc {
  results : list EvaluationResult;
  totalItems : Z;
  passedItems : Z
}.

(** [criterion.check(page, ...)], with the call noted in the ghost record. *)
Definition invoke (criterion : Criterion) (timing : option Z) : M CheckOutcome :=
  (fun w => record (Invoked (id criterion) timing (viewport (page w))) w) ;;
  liftP (check criterion timing).

(** The result pushed in the [catch] branch. *)
Definition errorResult (category : string) (criterion : Criterion) (err : JsError)
  : EvaluationResult :=
  mkResult category (id criterion) (name criterion) (description criterion)
           (impact criterion) StatusError
           ("Evaluation failed: " ++ message err)
           ["Unable to evaluate - check page accessibility"]
           0.

(** One iteration of the inner loop.  Nothing after [results.push] in the
    [try] block can throw (the logger does not), so the [catch] branch
    always starts from the accumulator as it was after [totalItems++]. *)
Definition evaluateCriterion (navigationTime : Z) (category : string)
    (criterion : Criterion) (acc : Acc) : M Acc :=
  let acc := mkAcc (results acc) (totalItems acc + 1) (passedItems acc) in
  try_catch
    (startTime <- now ;;
     result <- (if String.eqb (id criterion) "perf-001"
                then t <- now ;; invoke criterion (Some (t - navigationTime))
                else invoke criterion None) ;;
     endTime <- now ;;
     let checkTime := endTime - startTime in
     let evaluationResult :=
       mkResult category (id criterion) (name criterion) (description criterion)
                (impact criterion) (Checked (co_status result)) (co_details result)
                (match co_recommendations result with Some r => r | None => [] end)
                checkTime in
     let acc := mkAcc (results acc ++ [evaluationResult])%list (totalItems acc)
                      (match co_status result with
                       | Pass => passedItems acc + 1
                       | _ => passedItems acc
                       end) in
     (if checkTime >? 5000
      then logger LWarn ("Slow evaluation check: " ++ id criterion)
      else ret tt) ;;
     ret acc)
    (fun err =>
       logger LError ("Evaluation error for " ++ id criterion ++ ":") ;;
       ret (mkAcc (results acc ++ [errorResult category criterion err])%list
                  (totalItems acc) (passedItems acc))).

Fixpoint evaluateCriteria (navigationTime : Z) (category : string)
    (criteria : list Criterion) (acc : Acc) : M Acc :=
  match criteria with
  | [] => ret acc
  | criterion :: rest =>
      acc' <- evaluateCriterion navigationTime category criterion acc ;;
      evaluateCriteria navigationTime category rest acc'
  end.

Fixpoint evaluateCategories (navigationTime : Z)
    (registry : list (string * list Criterion)) (acc : Acc) : M Acc :=
  match registry with
  | [] => ret acc
  | (category, criteria) :: rest =>
      logger LDebug ("Evaluating " ++ category ++ " ("
                     ++ showZ (Z.of_nat (List.length criteria)) ++ " items)") ;;
      acc' <- evaluateCriteria navigationTime category criteria acc ;;
      evaluateCategories navigationTime rest acc'
  end.

(** [results.filter(r => r.category === c).length] *)
Definition countCategory (c : string) (rs : list EvaluationResult) : Z :=
  Z.of_nat (List.length (filter (fun r => String.eqb (er_category r) c) rs)).

Definition summarize (acc : Acc) : Analysis :=
  mkAnalysis (results acc)
    (mkSummary (totalItems acc) (passedItems acc)
               (totalItems acc - passedItems acc)
               (score_of (passedItems acc) (totalItems acc))
               (mkCategories (countCategory "accessibility" (results acc))
                             (countCategory "performance" (results acc))
                             (countCategory "seo" (results acc))
                             (countCategory "security" (results acc))
                             (countCategory "usability" (results acc)))).

Definition performEvaluation (registry : list (string * list Criterion))
    (navigationTime : Z) : M Analysis :=
  logger LInfo "🔍 Starting 67-point evaluation..." ;;
  acc <- evaluateCategories navigationTime registry (mkAcc [] 0 0) ;;
  logger LInfo ("📊 Evaluation completed: " ++ showZ (passedItems acc) ++ "/"
                ++ showZ (totalItems acc) ++ " passed ("
                ++ showZ (score_of (passedItems acc) (totalItems acc)) ++ "%)") ;;
  ret (summarize acc).

(** ** [takeScreenshots] *)

Definition defaultViewports : list Viewport :=
  [ mkViewport "mobile" 375 667;
    mkViewport "tablet" 768 1024;
    mkViewport "desktop" 1920 1080;
    mkViewport "4k" 3840 2160 ].

(** [viewports.length > 0 ? viewports : defaultViewports] *)
Definition targetViewports (viewports : list Viewport) : list Viewport :=
  match viewports with
  | [] => defaultViewports
  | _ => viewports
  end.

(** [page.screenshot(...)], with the capture noted in the ghost record. *)
Definition screenshot (name : string) : M Z :=
  buffer <- await (page_screenshot B) ;;
  (fun w => record (Captured name (viewport (page w))) w) ;;
  ret buffer.

(** The [try] block of one iteration: resize, settle, capture, upload. *)
Definition captureViewport (analysisId : string) (viewport : Viewport)
  : M ScreenshotResult :=
  playwrightAction "screenshot" ;;
  liftP (setViewportSize (vp_width viewport) (vp_height viewport)) ;;
  await (page_waitForTimeout B 1000) ;;
  screenshotBuffer <- screenshot (vp_name viewport) ;;
  let filename := "screenshots/" ++ analysisId ++ "-" ++ vp_name viewport ++ ".png" in
  gcsUrl <- await (gcs_uploadScreenshot B screenshotBuffer filename) ;;
  logger LDebug ("📸 Screenshot taken: " ++ vp_name viewport ++ " ("
                 ++ showZ screenshotBuffer ++ " bytes)") ;;
  ret (mkShot (vp_name viewport) (vp_width viewport) (vp_height viewport)
              None (Some gcsUrl) screenshotBuffer (Some filename)).

(** The entry pushed in the [catch] branch. *)
Definition errorShot (viewport : Viewport) (err : JsError) : ScreenshotResult :=
  mkShot (vp_name viewport) (vp_width viewport) (vp_height viewport)
         (Some (message err)) None 0 None.

Definition screenshotViewport (analysisId : string) (viewport : Viewport)
  : M ScreenshotResult :=
  try_catch (captureViewport analysisId viewport)
    (fun err =>
       logger LError ("Screenshot failed for " ++ vp_name viewport ++ ":") ;;
       ret (errorShot viewport err)).

Fixpoint screenshotLoop (analysisId : string) (viewports : list Viewport)
    (screenshots : list ScreenshotResult) : M (list ScreenshotResult) :=
  match viewports with
  | [] => ret screenshots
  | viewport :: rest =>
      shot <- screenshotViewport analysisId viewport ;;
      screenshotLoop analysisId rest (screenshots ++ [shot])%list
  end.

Definition takeScreenshots (analysisId : string) (viewports : list Viewport)
  : M (list ScreenshotResult) :=
  screenshotLoop analysisId (targetViewports viewports) [].

(** ** [getPerformanceMetrics] *)

Definition getPerformanceMetrics : M Metrics :=
  try_catch
    (metrics <- await (page_performance B) ;;
     performanceMetric "dom_elements" ;;
     performanceMetric "network_requests" ;;
     ret metrics)
    (fun err =>
       logger LError "Failed to get performance metrics:" ;;
       ret (mkMetrics 0 0 0 0 0 0 0 (Some (message err)))).

(** ** [initialize] *)

Definition setInitialized : M unit :=
  fun w => (Ok tt, mkWorld (page w) true (openContexts w) (logs w) (trace w)).

Definition initialize : M unit :=
  fun w =>
    if isInitialized w then (Ok tt, w)
    else
      try_catch
        (logger LInfo "🎭 Initializing Playwright browser..." ;;
         await (chromium_launch B) ;;
         setInitialized ;;
         logger LInfo "✅ Playwright browser initialized successfully")
        (fun err =>
           logger LError "Failed to initialize Playwright browser:" ;;
           throw (AppError "Failed to initialize browser" 500 "PLAYWRIGHT_INIT_ERROR"
                           [("error", DStr (message err))]))
        w.

(** ** [analyzeUrl] *)

(** The optional wait for [options.waitFor], in its own try/catch. *)
Definition waitForOption (options : Options) : M unit :=
  match waitFor_selector options with
  | Some selector =>
      try_catch
        (await (page_waitForSelector B selector 10000) ;;
         playwrightAction "wait_for_selector")
        (fun err => logger LWarn ("Wait for selector failed: " ++ selector))
  | None => ret tt
  end.

(** [page.waitForLoadState('networkidle', ...).catch(() => logger.warn(...))] *)
Definition waitForNetworkIdle : M unit :=
  try_catch (await (page_waitForLoadState B "networkidle" 15000))
    (fun _ => logger LWarn "Network idle timeout - continuing with analysis").

(** The [catch] block of [analyzeUrl]. *)
Definition analysisFailed (url : string) (options : Options) (err : JsError)
  : M AnalysisRun :=
  logger LError ("Analysis failed for " ++ url ++ ":") ;;
  if instanceofAppError err then throw err
  else if includes (message err) "timeout" then
    throw (AppError "Page load timeout" 504 "TIMEOUT_ERROR"
                    [("url", DStr url); ("timeout", DNum (timeout_or_default options))])
  else if includes (message err) "net::" then
    throw (AppError "Network error" 502 "NETWORK_ERROR"
                    [("url", DStr url); ("networkError", DStr (message err))])
  else
    throw (AppError "Analysis failed" 500 "ANALYSIS_ERROR"
                    [("url", DStr url); ("error", DStr (message err))]).

(** What follows a successful navigation inside the [try] block. *)
Definition analyzeLoadedPage (registry : list (string * list Criterion))
    (url id : string) (startTime navigationTime : Z)
    (viewports : list Viewport) (options : Options) : M AnalysisRun :=
  performanceMetric "page_navigation" ;;
  waitForOption options ;;
  waitForNetworkIdle ;;
  screenshots <- takeScreenshots id viewports ;;
  analysis <- performEvaluation registry navigationTime ;;
  performanceMetrics <- getPerformanceMetrics ;;
  closeContext ;;
  endTime <- now ;;
  let totalTime := endTime - startTime in
  performanceMetric "total_analysis" ;;
  logger LInfo ("✅ Analysis completed for " ++ url) ;;
  (fun w =>
     (Ok (mkRun true url id (toISOString B (outside (page w)))
                screenshots analysis performanceMetrics totalTime), w)).

(** The navigation call and what follows it in the [try] block. *)
Definition navigate (registry : list (string * list Criterion))
    (url id : string) (startTime navigationStartTime : Z)
    (viewports : list Viewport) (options : Options) : M AnalysisRun :=
  response <- await (page_goto B url (timeout_or_default options)) ;;
  match response with
  | None => throw (AppError "Failed to load page" 502 "PAGE_LOAD_FAILED" [])
  | Some r =>
      if negb (ok r) then
        throw (AppError ("HTTP " ++ showZ (status r) ++ ": " ++ statusText r)
                        502 "HTTP_ERROR"
                        [("status", DNum (status r)); ("statusText", DStr (statusText r))])
      else
        t <- now ;;
        analyzeLoadedPage registry url id startTime (t - navigationStartTime)
                          viewports options
  end.

(** The [try] block of [analyzeUrl].  The page's console and pageerror
    listeners only log warnings when the page emits such events and are
    left out. *)
Definition analyzeBody (registry : list (string * list Criterion))
    (url id : string) (startTime : Z)
    (viewports : list Viewport) (options : Options) : M AnalysisRun :=
  initialize ;;
  newContext (timeout_or_default options) ;;
  await (context_newPage B) ;;
  playwrightAction "navigate" ;;
  navigationStartTime <- now ;;
  record (Navigating navigationStartTime) ;;
  navigate registry url id startTime navigationStartTime viewports options.

Definition analyzeUrl (registry : list (string * list Criterion))
    (url : string) (viewports : list Viewport) (options : Options) : M AnalysisRun :=
  id <- liftP (fun p => let (i, e) := uuidv4 B (outside p) in
                        (Ok i, mkPage e (viewport p))) ;;
  startTime <- now ;;
  logger LInfo ("🔍 Starting analysis for " ++ url) ;;
  try_catch (analyzeBody registry url id startTime viewports options)
            (analysisFailed url options).

End Service.

Arguments Ok {A} a.
Arguments outside {E} p.
Arguments viewport {E} p.
Arguments page {E} w.
Arguments isInitialized {E} w.
Arguments openContexts {E} w.
Arguments logs {E} w.
Arguments trace {E} w.
Arguments id {E} c.
Arguments name {E} c.
Arguments description {E} c.
Arguments impact {E} c.
Arguments check {E} c.

(** ** A laboratory browser

    A concrete outside world on which runs can be evaluated: its state is
    the wall clock in milliseconds.  Navigation takes 200 ms and answers
    with a configured HTTP status, [waitForTimeout] lets the requested time
    pass, resizing to one configured width throws, and the document reads
    of one configured criterion reject. *)

Record Lab := mkLab {
  (** the HTTP status the site answers with; 0 stands for no response *)
  lab_status : Z;
  (** [setViewportSize] throws for this width *)
  lab_bad_width : Z;
  (** id of the criterion whose document reads reject *)
  lab_broken_check : string;
  (** whether the awaited selector appears and the network goes idle *)
  lab_settles : bool
}.

Definition labBrowser (l : Lab) : Browser Z :=
  {| chromium_launch := fun p => (Ok tt, outside p);
     browser_newContext := fun _ p => (Ok tt, outside p);
     context_newPage := fun p => (Ok tt, outside p);
     context_close := fun p => (Ok tt, outside p);
     page_goto := fun _ _ p =>
       (Ok (if lab_status l =? 0 then None
            else Some (mkResponse ((200 <=? lab_status l) && (lab_status l <=? 299))
                                  (lab_status l) "status text")),
        outside p + 200);
     page_waitForSelector := fun _ t p =>
       if lab_settles l then (Ok tt, outside p)
       else (Throw (Error "page.waitForSelector: Timeout exceeded."), outside p + t);
     page_waitForLoadState := fun _ t p =>
       if lab_settles l then (Ok tt, outside p)
       else (Throw (Error "page.waitForLoadState: Timeout exceeded."), outside p + t);
     page_setViewportSize := fun w _ p =>
       if w =? lab_bad_width l
       then (Throw (Error "page.setViewportSize: Target closed"), outside p)
       else (Ok tt, outside p);
     page_waitForTimeout := fun ms p => (Ok tt, outside p + ms);
     page_screenshot := fun p => (Ok 2048, outside p);
     gcs_uploadScreenshot := fun _ filename p =>
       (Ok ("gs://bucket/" ++ filename), outside p);
     page_performance := fun p => (Ok (mkMetrics 180 150 90 120 40 7 5000 None), outside p);
     page_has := fun _ p => (Ok true, outside p);
     page_evaluate_bool := fun _ p => (Ok false, outside p);
     page_count := fun _ _ p => (Ok 3, outside p);
     dom_check := fun i p =>
       if String.eqb i (lab_broken_check l)
       then (Throw (Error "Execution context was destroyed"), outside p)
       else (Ok (mkOutcome Pass "checked" None), outside p + 5);
     Date_now := fun e => e;
     toISOString := fun _ => "2024-01-01T00:00:00.000Z";
     uuidv4 := fun e => ("run-1", e) |}.

(** A healthy site, and a site that answers every request with HTTP 500. *)
Definition healthy : Lab := mkLab 200 (-1) "none" true.
Definition failing500 : Lab := mkLab 500 (-1) "none" true.
(** A healthy site on which the tablet resize throws, [page.title()], the
    read of seo-001, rejects, and neither best-effort wait settles. *)
Definition flaky : Lab := mkLab 200 768 "seo-001" false.

(** A fresh service at wall-clock time 1000 with a 1280x720 page. *)
Definition labWorld : World Z :=
  mkWorld Z (mkPage Z 1000 (1280, 720)) false 0 [] [].

Definition noOptions : Options := mkOptions None None.

Definition labUrl : string := "https://example.com/".

(** seo-001 on the flaky site, where its [page.title()] rejects. *)
Definition flakyTitleTag : Criterion Z :=
  reading Z (labBrowser flaky) "seo-001" "Title Tag"
          "Page has unique and descriptive title" "critical".

(** The error [page.title()] rejects with on the flaky site. *)
Definition contextDestroyed : JsError := Error "Execution context was destroyed".

(** An accumulator that already holds one passed result. *)
Definition onePassed : Acc :=
  mkAcc [mkResult "accessibility" "a11y-001" "Color Contrast Ratio"
                  "Text has sufficient color contrast ratio (minimum 4.5:1)"
                  "critical" (Checked Pass) "checked" [] 5] 1 1.

(** Options that wait for a selector. *)
Definition waitForApp : Options := mkOptions None (Some "#app").

(** The service's registry on a laboratory browser. *)
Definition labRegistry (l : Lab) : list (string * list (Criterion Z)) :=
  fullEvaluationCriteria Z (labBrowser l).

(** A run of [analyzeUrl] on a laboratory browser, with the default
    viewports and no options. *)
Definition labRun (l : Lab) : Outcome AnalysisRun * World Z :=
  analyzeUrl Z (labBrowser l) (labRegistry l) labUrl [] noOptions labWorld.

(** A criterion whose check settles at once with a fixed outcome. *)
Definition settled (E : Type) (o : Outcome CheckOutcome) (n : nat) : Criterion E :=
  mkCriterion E ("c-" ++ showZ (Z.of_nat n)) "scenario" "scenario" "minor"
              (fun _ p => (o, p)).

(** The scenario registry: 67 criteria of which 45 pass, 20 fail and the
    checks of 2 throw. *)
Definition scenario67 : list (string * list (Criterion Z)) :=
  [ ("accessibility",
     (map (settled Z (Ok (mkOutcome Pass "fine" (Some [])))) (seq 0 45)
      ++ map (settled Z (Ok (mkOutcome Fail "bad" None))) (seq 45 20)
      ++ map (settled Z (Throw (Error "boom"))) (seq 65 2))%list) ].

(** Percentages of all counts up to a bound, for exhaustive checks of the
    double-precision score. *)
Definition range (n : nat) : list Z := map Z.of_nat (seq 0 (S n)).

(** [score_of p t] is an integer within 1/2 of 100 p / t and in 0..100. *)
Definition nearest_percent (p t : Z) : bool :=
  let s := score_of p t in
  (Z.abs (200 * p - 2 * s * t) <=? t) && (0 <=? s) && (s <=? 100).

Definition nearest_percent_upto (n : nat) : bool :=
  forallb (fun t => forallb (fun p => nearest_percent p t) (range (Z.to_nat t)))
          (tl (range n)).


(** ** Notions used in the statements *)

(** The result the [catch] branch pushes for a check that threw [err]. *)
Definition thrownResult (err : JsError) (r : EvaluationResult) : Prop :=
  er_status r = StatusError
  /\ er_checkTime r = 0
  /\ er_recommendations r = ["Unable to evaluate - check page accessibility"]
  /\ er_details r = "Evaluation failed: " ++ message err.

Section Notions.

Variable E : Type.
Variable B : Browser E.

(** The second argument [performEvaluation] hands to a criterion's check
    when it calls it in world [w]. *)
Definition timingArgument (navigationTime : Z) (c : Criterion E) (w : World E)
  : option Z :=
  if String.eqb (id c) "perf-001"
  then Some (Date_now E B (outside (page w)) - navigationTime)
  else None.

(** Category and id of every registered criterion, in registry order. *)
Definition registered (registry : list (string * list (Criterion E)))
  : list (string * string) :=
  flat_map (fun entry => map (fun c => (fst entry, id c)) (snd entry)) registry.

(** Every registered criterion with its category, in registry order. *)
Definition criteriaOf (registry : list (string * list (Criterion E)))
  : list (string * Criterion E) :=
  flat_map (fun entry => map (pair (fst entry)) (snd entry)) registry.

(** What the check of criterion [c] does when [performEvaluation] calls it
    in world [w]. *)
Definition checkOutcome (navigationTime : Z) (c : Criterion E) (w : World E)
  : Outcome CheckOutcome :=
  fst (check c (timingArgument navigationTime c w) (page w)).

(** [r] is the result of the iteration that called the check of the
    registered criterion [cc] in world [w]: it has the criterion's category
    and id, and it is the [catch] branch's result for the error the check
    threw, or else has the status the check returned. *)
Definition judgedAt (navigationTime : Z) (cc : string * Criterion E) (w : World E)
    (r : EvaluationResult) : Prop :=
  (er_category r, er_id r) = (fst cc, id (snd cc))
  /\ match checkOutcome navigationTime (snd cc) w with
     | Throw err => thrownResult err r
     | Ok o => er_status r = Checked (co_status o)
     end.

Definition judged (navigationTime : Z) (cc : string * Criterion E)
    (r : EvaluationResult) : Prop :=
  exists w, judgedAt navigationTime cc w r.

(** The run of [analyzeUrl] up to, and not including, the navigation call:
    it yields the analysis id, the start time and the navigation start. *)
Definition untilNavigation (url : string) (options : Options) : M E (string * Z * Z) :=
  i <- liftP E (fun p => let (i, e) := uuidv4 E B (outside p) in
                         (Ok i, mkPage E e (viewport p))) ;;
  startTime <- now E B ;;
  logger E LInfo ("🔍 Starting analysis for " ++ url) ;;
  initialize E B ;;
  newContext E B (timeout_or_default options) ;;
  await E (context_newPage E B) ;;
  playwrightAction E "navigate" ;;
  navigationStartTime <- now E B ;;
  record E (Navigating navigationStartTime) ;;
  ret (i, startTime, navigationStartTime).

(** The state of the page when the loop reaches its [i]-th viewport. *)
Definition worldAtViewport (analysisId : string) (vps : list Viewport) (i : nat)
    (w : World E) : World E :=
  snd (screenshotLoop E B analysisId (firstn i vps) [] w).

End Notions.

Definition isNavigating (ev : Event) : Prop := exists t, ev = Navigating t.

(** A navigation that yields no response, or one that is not [ok()]. *)
Definition badResponse (response : option Response) : bool :=
  match response with
  | None => true
  | Some r => negb (ok r)
  end.

(** The [AppError] [analyzeUrl] throws for such a navigation. *)
Definition navigationError (response : option Response) : JsError :=
  match response with
  | None => AppError "Failed to load page" 502 "PAGE_LOAD_FAILED" []
  | Some r =>
      AppError ("HTTP " ++ showZ (status r) ++ ": " ++ statusText r) 502 "HTTP_ERROR"
               [("status", DNum (status r)); ("statusText", DStr (statusText r))]
  end.

(** Category and id of a result. *)
Definition keyOf (r : EvaluationResult) : string * string :=
  (er_category r, er_id r).

(** Results with status 'pass'. *)
Definition countPass (rs : list EvaluationResult) : Z :=
  Z.of_nat (List.length (filter (fun r => is_pass (er_status r)) rs)).

(** The summary's counts agree with the result list. *)
Definition countsAgree (a : Analysis) : Prop :=
  passed (summary a) + failed (summary a) = total (summary a)
  /\ total (summary a) = Z.of_nat (List.length (items a))
  /\ passed (summary a) = countPass (items a).

(** The summary's score is [Math.round] of the double
    [(passed / total) * 100], and 0 when there is no result. *)
Definition scoreIsRoundedPercentage (a : Analysis) : Prop :=
  passed (summary a) = countPass (items a)
  /\ total (summary a) = Z.of_nat (List.length (items a))
  /\ (total (summary a) > 0 ->
      score (summary a)
      = Math_round (PrimFloat.mul (PrimFloat.div (num (passed (summary a)))
                                                 (num (total (summary a))))
                                  (num 100)))
  /\ (total (summary a) = 0 -> score (summary a) = 0).

(** An 'error' result has the shape the [catch] branch gives it. *)
Definition errorShaped (r : EvaluationResult) : Prop :=
  er_status r = StatusError ->
  er_checkTime r = 0
  /\ er_recommendations r = ["Unable to evaluate - check page accessibility"]
  /\ exists err, er_details r = "Evaluation failed: " ++ message err.

(** An invocation carries a timing argument exactly when it is perf-001's. *)
Definition dispatched (ev : Event) : Prop :=
  match ev with
  | Invoked i timing _ => timing <> None <-> i = "perf-001"
  | _ => False
  end.

Definition invokedId (ev : Event) : string :=
  match ev with
  | Invoked i _ _ => i
  | _ => ""
  end.

(** What one stretch of the evaluation loop does to the world: the checks
    it called, in order, each dispatched by id; nothing else is recorded,
    and the service's contexts and flag are untouched. *)
Definition invocations (ids : list string) {E : Type} (w w' : World E) : Prop :=
  (exists evs, trace w' = (trace w ++ evs)%list
               /\ map invokedId evs = ids
               /\ Forall dispatched evs)
  /\ openContexts w' = openContexts w
  /\ isInitialized w' = isInitialized w.

(** Name, width and height of a screenshot entry and of a viewport. *)
Definition shotKey (s : ScreenshotResult) : string * Z * Z :=
  (shot_viewport s, shot_width s, shot_height s).

Definition viewportKey (v : Viewport) : string * Z * Z :=
  (vp_name v, vp_width v, vp_height v).

(** A capture of viewport [v] ran at that viewport's own size. *)
Definition capturedAt (v : Viewport) (ev : Event) : Prop :=
  ev = Captured (vp_name v) (vp_width v, vp_height v).

(** The events a run leaves after a successful navigation: captures, each at
    its viewport's own size, and then one invocation per registered
    criterion. *)
Definition capturesThenInvocations (E : Type)
    (registry : list (string * list (Criterion E)))
    (viewports : list Viewport) (w w' : World E) : Prop :=
  exists caps invs,
    trace w' = (trace w ++ caps ++ invs)%list
    /\ Forall (fun ev => exists v, In v (targetViewports viewports) /\ capturedAt v ev) caps
    /\ map invokedId invs = map snd (registered E registry)
    /\ Forall dispatched invs.

Ltac splits := repeat match goal with |- _ /\ _ => split end.

(** Name the outcome of the first awaited step of a hypothesis. *)
Ltac step_in H :=
  match type of H with
  | context [match ?x with (_, _) => _ end] =>
      let Hs := fresh "Hstep" in
      destruct x as [[? | ?] ?] eqn:Hs; try discriminate H
  end.

(** * Properties *)

Section Evaluation.

Variable E : Type.
Variable B : Browser E.

Lemma passed_step (o : CheckOutcome) (x : Z) :
  match co_status o with Pass => x + 1 | _ => x end
  = x + (if is_pass (Checked (co_status o)) then 1 else 0).
Proof. destruct (co_status o); cbn; lia. Qed.

Lemma evaluateCriterion_runs (navigationTime : Z) (category : string)
    (c : Criterion E) (acc : Acc) (w : World E) :
  exists r w',
    evaluateCriterion E B navigationTime category c acc w
    = (Ok (mkAcc (results acc ++ [r])%list (totalItems acc + 1)
                 (passedItems acc + (if is_pass (er_status r) then 1 else 0))), w')
    /\ (er_category r, er_id r) = (category, id c)
    /\ match fst (check c (timingArgument E B navigationTime c w) (page w)) with
       | Ok o => er_status r = Checked (co_status o)
       | Throw err => r = errorResult E category c err
       end
    /\ page w' = snd (check c (timingArgument E B navigationTime c w) (page w))
    /\ trace w' = (trace w ++ [Invoked (id c) (timingArgument E B navigationTime c w)
                                       (viewport (page w))])%list
    /\ openContexts w' = openContexts w
    /\ isInitialized w' = isInitialized w.
Proof.
  unfold evaluateCriterion, timingArgument, invoke, try_catch, bind, now, record,
    liftP, logger, ret.
  destruct (String.eqb (id c) "perf-001"); cbn [page trace].
  all: destruct (check c _ (page w)) as [[o | err] p'] eqn:Hc; cbn.
  all: try rewrite passed_step.
  all: try (destruct (_ >? 5000); cbn).
  all: match goal with
       | |- exists r w', (Ok (mkAcc (_ ++ [?x])%list _ _), ?y) = _ /\ _ =>
           exists x, y
       end.
  all: cbn; try rewrite Z.add_0_r; repeat split.
Qed.

Lemma invocations_nil (w : World E) : invocations [] w w.
Proof.
  split; [ exists []; rewrite app_nil_r; auto | auto ].
Qed.

Lemma invocations_app (ids1 ids2 : list string) (w0 w1 w2 : World E) :
  invocations ids1 w0 w1 -> invocations ids2 w1 w2 ->
  invocations (ids1 ++ ids2)%list w0 w2.
Proof.
  intros [(e1 & T1 & I1 & D1) [C1 F1]] [(e2 & T2 & I2 & D2) [C2 F2]].
  split; [ | split; congruence ].
  exists (e1 ++ e2)%list. repeat split.
  - rewrite T2, T1, app_assoc. reflexivity.
  - rewrite map_app, I1, I2. reflexivity.
  - apply Forall_app; auto.
Qed.

Lemma invocations_same_trace (w w' : World E) :
  trace w' = trace w -> openContexts w' = openContexts w ->
  isInitialized w' = isInitialized w -> invocations [] w w'.
Proof.
  intros T C F. split; [ exists []; rewrite app_nil_r; auto | auto ].
Qed.

Lemma dispatched_timingArgument (nav : Z) (c : Criterion E) (w : World E) vp :
  dispatched (Invoked (id c) (timingArgument E B nav c w) vp).
Proof.
  unfold dispatched, timingArgument.
  destruct (String.eqb_spec (id c) "perf-001") as [Heq | Hne]; split;
    intros H; congruence.
Qed.

Lemma errorResult_shaped (category : string) (c : Criterion E) (err : JsError) :
  errorShaped (errorResult E category c err).
Proof.
  intros _. cbn. repeat split. exists err. reflexivity.
Qed.

Lemma countPass_cons (r : EvaluationResult) (rs : list EvaluationResult) :
  countPass (r :: rs) = (if is_pass (er_status r) then 1 else 0) + countPass rs.
Proof.
  unfold countPass. cbn [filter]. destruct (is_pass (er_status r)); cbn [List.length]; lia.
Qed.

Lemma evaluateCriteria_runs (navigationTime : Z) (category : string)
    (cs : list (Criterion E)) :
  forall (acc : Acc) (w : World E),
  exists rs w',
    evaluateCriteria E B navigationTime category cs acc w
    = (Ok (mkAcc (results acc ++ rs)%list
                 (totalItems acc + Z.of_nat (List.length rs))
                 (passedItems acc + countPass rs)), w')
    /\ map keyOf rs = map (fun c => (category, id c)) cs
    /\ Forall errorShaped rs
    /\ invocations (map id cs) w w'.
Proof.
  induction cs as [| c cs IH]; intros acc w.
  - exists [], w. cbn. rewrite app_nil_r, !Z.add_0_r.
    destruct acc; splits; auto using invocations_nil.
  - destruct (evaluateCriterion_runs navigationTime category c acc w)
      as (r & w1 & Hstep & Hkey & Hout & _ & Htr & Hctx & Hini).
    destruct (IH (mkAcc (results acc ++ [r])%list (totalItems acc + 1)
                        (passedItems acc + (if is_pass (er_status r) then 1 else 0)))
                 w1) as (rs & w2 & Hrest & Hkeys & Hshape & Hinv).
    exists (r :: rs), w2. cbn [evaluateCriteria]. unfold bind.
    rewrite Hstep, Hrest. cbn [results totalItems passedItems].
    rewrite <- app_assoc, countPass_cons. cbn [app List.length map].
    splits.
    + do 2 f_equal. f_equal; lia.
    + unfold keyOf at 1. rewrite Hkey, Hkeys. reflexivity.
    + constructor; [ | exact Hshape ].
      destruct (fst (check c _ (page w))) as [o | err].
      * intros Hs. congruence.
      * subst r. apply errorResult_shaped.
    + change (id c :: map id cs) with ([id c] ++ map id cs)%list.
      apply invocations_app with w1; [ | exact Hinv ].
      split; [ | auto ].
      eexists. split; [ exact Htr | ]. split; [ reflexivity | ].
      constructor; [ apply dispatched_timingArgument | constructor ].
Qed.

Lemma logger_invocations (l : Level) (text : string) (w : World E) :
  exists w', logger E l text w = (Ok tt, w') /\ invocations [] w w'
             /\ page w' = page w.
Proof.
  eexists. split; [ reflexivity | ].
  split; [ apply invocations_same_trace; reflexivity | reflexivity ].
Qed.

Lemma evaluateCategories_runs (navigationTime : Z)
    (registry : list (string * list (Criterion E))) :
  forall (acc : Acc) (w : World E),
  exists rs w',
    evaluateCategories E B navigationTime registry acc w
    = (Ok (mkAcc (results acc ++ rs)%list
                 (totalItems acc + Z.of_nat (List.length rs))
                 (passedItems acc + countPass rs)), w')
    /\ map keyOf rs = registered E registry
    /\ Forall errorShaped rs
    /\ invocations (map snd (registered E registry)) w w'.
Proof.
  induction registry as [| [category cs] registry IH]; intros acc w.
  - exists [], w. cbn. rewrite app_nil_r, !Z.add_0_r.
    destruct acc; splits; auto using invocations_nil.
  - cbn [evaluateCategories]. unfold bind at 1.
    destruct (logger_invocations LDebug
                ("Evaluating " ++ category ++ " ("
                 ++ showZ (Z.of_nat (List.length cs)) ++ " items)") w)
      as (w0 & Hlog & Hinv0 & _).
    rewrite Hlog. unfold bind.
    destruct (evaluateCriteria_runs navigationTime category cs acc w0)
      as (rs1 & w1 & Hrun1 & Hkeys1 & Hshape1 & Hinv1).
    rewrite Hrun1.
    destruct (IH (mkAcc (results acc ++ rs1)%list
                        (totalItems acc + Z.of_nat (List.length rs1))
                        (passedItems acc + countPass rs1)) w1)
      as (rs2 & w2 & Hrun2 & Hkeys2 & Hshape2 & Hinv2).
    rewrite Hrun2. cbn [results totalItems passedItems].
    exists (rs1 ++ rs2)%list, w2. splits.
    + rewrite <- app_assoc. do 2 f_equal.
      unfold countPass. rewrite filter_app, !length_app, !Nat2Z.inj_add.
      f_equal; lia.
    + cbn [registered flat_map fst snd]. rewrite map_app, Hkeys1, Hkeys2.
      reflexivity.
    + apply Forall_app; auto.
    + cbn [registered flat_map fst snd]. rewrite map_app, map_map. cbn [snd].
      apply invocations_app with w1; [ | exact Hinv2 ].
      change (map (fun c : Criterion E => id c) cs)
        with ([] ++ map id cs)%list.
      apply invocations_app with w0; assumption.
Qed.

Lemma performEvaluation_runs (registry : list (string * list (Criterion E)))
    (navigationTime : Z) (w : World E) :
  exists rs w',
    performEvaluation E B registry navigationTime w
    = (Ok (summarize (mkAcc rs (Z.of_nat (List.length rs)) (countPass rs))), w')
    /\ map keyOf rs = registered E registry
    /\ Forall errorShaped rs
    /\ invocations (map snd (registered E registry)) w w'.
Proof.
  unfold performEvaluation. unfold bind at 1.
  destruct (logger_invocations LInfo "🔍 Starting 67-point evaluation..." w)
    as (w0 & Hlog & Hinv0 & _).
  rewrite Hlog. unfold bind at 1.
  destruct (evaluateCategories_runs navigationTime registry (mkAcc [] 0 0) w0)
    as (rs & w1 & Hrun & Hkeys & Hshape & Hinv1).
  rewrite Hrun. cbn [results totalItems passedItems app Z.add].
  unfold bind.
  match goal with
  | |- context [logger E LInfo ?t w1] =>
      destruct (logger_invocations LInfo t w1) as (w2 & Hlog2 & Hinv2 & _);
      rewrite Hlog2
  end.
  exists rs, w2. splits; auto.
  rewrite <- (app_nil_r (map snd (registered E registry))).
  apply invocations_app with w1; [ | exact Hinv2 ].
  change (map snd (registered E registry))
    with ([] ++ map snd (registered E registry))%list.
  apply invocations_app with w0; assumption.
Qed.

End Evaluation.

Section Screenshots.

Variable E : Type.
Variable B : Browser E.

(** What one viewport's iteration does, whether its capture throws or not. *)
Lemma screenshotViewport_runs (analysisId : string) (v : Viewport) (w : World E) :
  exists shot w',
    screenshotViewport E B analysisId v w = (Ok shot, w')
    /\ shotKey shot = viewportKey v
    /\ match fst (captureViewport E B analysisId v w) with
       | Ok captured => shot = captured /\ shot_error shot = None
       | Throw err => shot = errorShot v err
       end
    /\ (exists evs, trace w' = (trace w ++ evs)%list /\ Forall (capturedAt v) evs)
    /\ openContexts w' = openContexts w
    /\ isInitialized w' = isInitialized w.
Proof.
  unfold screenshotViewport, captureViewport, screenshot, playwrightAction, await,
    liftP, setViewportSize, ask, logger, record, try_catch, bind, ret.
  cbn [page trace viewport outside isInitialized openContexts logs].
  destruct (page_setViewportSize E B _ _ _) as [[[] | e1] x1];
    cbn [page trace viewport outside isInitialized openContexts logs fst snd].
  2: { eexists; eexists; splits; try reflexivity.
       exists []; rewrite app_nil_r; auto. }
  destruct (page_waitForTimeout E B _ _) as [[[] | e2] x2];
    cbn [page trace viewport outside isInitialized openContexts logs fst snd].
  2: { eexists; eexists; splits; try reflexivity.
       exists []; rewrite app_nil_r; auto. }
  destruct (page_screenshot E B _) as [[n | e3] x3];
    cbn [page trace viewport outside isInitialized openContexts logs fst snd].
  2: { eexists; eexists; splits; try reflexivity.
       exists []; rewrite app_nil_r; auto. }
  destruct (gcs_uploadScreenshot E B _ _ _) as [[u | e4] x4];
    cbn [page trace viewport outside isInitialized openContexts logs fst snd].
  all: eexists; eexists; splits; try reflexivity.
  all: eexists; (split; [ reflexivity | ]); repeat constructor.
Qed.

(** The world the loop leaves does not depend on the entries collected. *)
Lemma screenshotLoop_world (analysisId : string) (vps : list Viewport) :
  forall (acc acc' : list ScreenshotResult) (w : World E),
    snd (screenshotLoop E B analysisId vps acc w)
    = snd (screenshotLoop E B analysisId vps acc' w).
Proof.
  induction vps as [| v vps IH]; intros acc acc' w; [ reflexivity | ].
  cbn [screenshotLoop]. unfold bind.
  destruct (screenshotViewport_runs analysisId v w) as (shot & w1 & Hrun & _).
  rewrite Hrun. apply IH.
Qed.

Lemma screenshotLoop_runs (analysisId : string) (vps : list Viewport) :
  forall (acc : list ScreenshotResult) (w : World E),
  exists shots w',
    screenshotLoop E B analysisId vps acc w = (Ok (acc ++ shots)%list, w')
    /\ map shotKey shots = map viewportKey vps
    /\ (exists evs, trace w' = (trace w ++ evs)%list
                    /\ Forall (fun ev => exists v, In v vps /\ capturedAt v ev) evs)
    /\ openContexts w' = openContexts w
    /\ isInitialized w' = isInitialized w
    /\ forall i v, nth_error vps i = Some v ->
         exists shot, nth_error shots i = Some shot
           /\ match fst (captureViewport E B analysisId v
                           (worldAtViewport E B analysisId vps i w)) with
              | Ok captured => shot = captured /\ shot_error shot = None
              | Throw err => shot = errorShot v err
              end.
Proof.
  induction vps as [| v vps IH]; intros acc w.
  - exists [], w. cbn. rewrite app_nil_r. splits; auto.
    + exists []. rewrite app_nil_r. auto.
    + intros [| i] v H; discriminate.
  - destruct (screenshotViewport_runs analysisId v w)
      as (shot & w1 & Hrun & Hkey & Hshot & (ev1 & Htr1 & Hcap1) & Hctx1 & Hini1).
    destruct (IH (acc ++ [shot])%list w1)
      as (shots & w2 & Hloop & Hkeys & (ev2 & Htr2 & Hcap2) & Hctx2 & Hini2 & Hnth).
    exists (shot :: shots), w2. cbn [screenshotLoop]. unfold bind.
    rewrite Hrun, Hloop, <- app_assoc. cbn [app map]. splits.
    + reflexivity.
    + rewrite Hkey, Hkeys. reflexivity.
    + exists (ev1 ++ ev2)%list. split.
      * rewrite Htr2, Htr1, app_assoc. reflexivity.
      * apply Forall_app. split.
        -- eapply Forall_impl; [ | exact Hcap1 ].
           intros ev Hev. exists v. split; [ left; reflexivity | exact Hev ].
        -- eapply Forall_impl; [ | exact Hcap2 ].
           intros ev (v' & Hin & Hev). exists v'. split; [ right | ]; assumption.
    + congruence.
    + congruence.
    + intros [| i] v' Hv'; cbn [nth_error] in *.
      * injection Hv' as <-. exists shot. split; [ reflexivity | exact Hshot ].
      * destruct (Hnth i v' Hv') as (shot' & Hi & Hm).
        exists shot'. split; [ exact Hi | ].
        unfold worldAtViewport in *. cbn [firstn screenshotLoop]. unfold bind.
        rewrite Hrun.
        rewrite (screenshotLoop_world analysisId (firstn i vps) _ [] w1).
        exact Hm.
Qed.

End Screenshots.

Section Run.

Variable E : Type.
Variable B : Browser E.

(** The [catch] block of [analyzeUrl] always rethrows an [AppError]; it only
    adds a line to the log. *)
Lemma analysisFailed_throws (url : string) (options : Options) (err : JsError)
    (w : World E) :
  exists err' w',
    analysisFailed E url options err w = (Throw err', w')
    /\ instanceofAppError err' = true
    /\ (instanceofAppError err = true -> err' = err)
    /\ trace w' = trace w
    /\ openContexts w' = openContexts w
    /\ page w' = page w.
Proof.
  unfold analysisFailed, logger, bind, throw.
  destruct err as [m | m sc c d]; cbn [instanceofAppError message].
  - destruct (includes m "timeout"); [ | destruct (includes m "net::") ];
      eexists; eexists; splits; try reflexivity; discriminate.
  - eexists; eexists; splits; reflexivity.
Qed.

(** [analyzeUrl] is the run up to the navigation call followed by the rest
    of the [try] block under the [catch] block. *)
Lemma analyzeUrl_unfold (registry : list (string * list (Criterion E)))
    (url : string) (viewports : list Viewport) (options : Options) (w : World E) :
  analyzeUrl E B registry url viewports options w
  = match untilNavigation E B url options w with
    | (Ok (i, startTime, t0), wn) =>
        try_catch (navigate E B registry url i startTime t0 viewports options)
                  (analysisFailed E url options) wn
    | (Throw err, wn) => analysisFailed E url options err wn
    end.
Proof.
  unfold analyzeUrl, untilNavigation, analyzeBody, playwrightAction, try_catch, bind,
    liftP, now, logger, record, ret.
  destruct (uuidv4 E B (outside (page w))) as [i e0]; cbv beta iota zeta.
  destruct (initialize E B _) as [[[] | err] w1]; cbv beta iota zeta;
    [ | reflexivity ].
  destruct (newContext E B _ w1) as [[[] | err] w2]; cbv beta iota zeta;
    [ | reflexivity ].
  destruct (await E (context_newPage E B) w2) as [[[] | err] w3]; cbv beta iota zeta;
    reflexivity.
Qed.

(** Awaiting the outside world changes the page only. *)
Lemma await_frame {A} (o : Oracle E A) (w : World E) :
  fst (await E o w) = fst (o (page w))
  /\ trace (snd (await E o w)) = trace w
  /\ openContexts (snd (await E o w)) = openContexts w
  /\ isInitialized (snd (await E o w)) = isInitialized w
  /\ logs (snd (await E o w)) = logs w
  /\ viewport (page (snd (await E o w))) = viewport (page w).
Proof.
  unfold await, liftP, ask. destruct (o (page w)) as [r e]. cbn. auto 10.
Qed.

Lemma initialize_frame (w : World E) :
  trace (snd (initialize E B w)) = trace w
  /\ openContexts (snd (initialize E B w)) = openContexts w
  /\ viewport (page (snd (initialize E B w))) = viewport (page w).
Proof.
  unfold initialize. destruct (isInitialized w); [ auto | ].
  unfold try_catch, bind, logger, setInitialized, throw.
  cbv beta iota zeta.
  match goal with
  | |- context [await E ?o ?w0] =>
      destruct (await_frame o w0) as (_ & T & C & _ & _ & V);
      destruct (await E o w0) as [[[] | err] w1]
  end; cbn in *; auto.
Qed.

Lemma untilNavigation_runs (url : string) (options : Options) (w : World E) :
  match untilNavigation E B url options w with
  | (Ok (_, _, t0), wn) =>
      trace wn = (trace w ++ [Navigating t0])%list
      /\ openContexts wn = S (openContexts w)
  | (Throw _, wn) => trace wn = trace w
  end.
Proof.
  unfold untilNavigation, playwrightAction, newContext, bind, liftP, now, logger,
    record, ret.
  destruct (uuidv4 E B (outside (page w))) as [i e0]; cbv beta iota zeta.
  match goal with
  | |- context [initialize E B ?w0] =>
      destruct (initialize_frame w0) as (T1 & C1 & _);
      destruct (initialize E B w0) as [[[] | err] w1]
  end; cbn in T1, C1; cbv beta iota zeta; [ | exact T1 ].
  match goal with
  | |- context [await E ?o w1] =>
      destruct (await_frame o w1) as (_ & T2 & C2 & _);
      destruct (await E o w1) as [[[] | err] w2]
  end; cbn in T2, C2; cbv beta iota zeta; [ | congruence ].
  match goal with
  | |- context [await E ?o ?w0] =>
      destruct (await_frame o w0) as (_ & T3 & C3 & _);
      destruct (await E o w0) as [[[] | err] w3]
  end; cbn in T3, C3; cbv beta iota zeta; cbn; [ | congruence ].
  split; congruence.
Qed.

(** Neither best-effort wait throws, and neither touches anything but the
    page and the log. *)
Lemma waitForOption_runs (options : Options) (w : World E) :
  exists w',
    waitForOption E B options w = (Ok tt, w')
    /\ trace w' = trace w /\ openContexts w' = openContexts w
    /\ isInitialized w' = isInitialized w
    /\ forall selector,
         waitFor_selector options = Some selector ->
         match fst (page_waitForSelector E B selector 10000 (page w)) with
         | Ok _ => logs w' = (logs w ++ [mkLog LDebug "🎭 Playwright wait_for_selector"])%list
         | Throw _ =>
             logs w' = (logs w ++ [mkLog LWarn ("Wait for selector failed: " ++ selector)])%list
         end.
Proof.
  unfold waitForOption. destruct (waitFor_selector options) as [selector | ].
  - unfold try_catch, bind, playwrightAction, logger.
    match goal with
    | |- context [await E ?o w] =>
        destruct (await_frame o w) as (R & T & C & F & L & _);
        destruct (await E o w) as [[[] | err] w1]
    end; cbn in *; eexists; splits; try reflexivity; auto.
    all: intros s Hs; injection Hs as <-; rewrite <- R, L; reflexivity.
  - exists w. splits; auto. discriminate.
Qed.

Lemma waitForNetworkIdle_runs (w : World E) :
  exists w',
    waitForNetworkIdle E B w = (Ok tt, w')
    /\ trace w' = trace w /\ openContexts w' = openContexts w
    /\ isInitialized w' = isInitialized w
    /\ match fst (page_waitForLoadState E B "networkidle" 15000 (page w)) with
       | Ok _ => logs w' = logs w
       | Throw _ =>
           logs w' = (logs w ++ [mkLog LWarn "Network idle timeout - continuing with analysis"])%list
       end.
Proof.
  unfold waitForNetworkIdle, try_catch, logger.
  match goal with
  | |- context [await E ?o w] =>
      destruct (await_frame o w) as (R & T & C & F & L & _);
      destruct (await E o w) as [[[] | err] w1]
  end; cbn in *; eexists; splits; try reflexivity; auto.
  all: rewrite <- R; cbn; congruence.
Qed.

Lemma getPerformanceMetrics_runs (w : World E) :
  exists m w',
    getPerformanceMetrics E B w = (Ok m, w')
    /\ trace w' = trace w /\ openContexts w' = openContexts w.
Proof.
  unfold getPerformanceMetrics, try_catch, bind, performanceMetric, logger, ret.
  match goal with
  | |- context [await E ?o w] =>
      destruct (await_frame o w) as (_ & T & C & _);
      destruct (await E o w) as [[m | err] w1]
  end; cbn in *; eexists; eexists; splits; try reflexivity; auto.
Qed.

Lemma logger_frame (l : Level) (text : string) (w : World E) :
  exists w', logger E l text w = (Ok tt, w')
             /\ trace w' = trace w /\ openContexts w' = openContexts w.
Proof. eexists. splits; reflexivity. Qed.

Lemma closeContext_runs (w : World E) :
  match closeContext E B w with
  | (Ok _, w') => trace w' = trace w /\ openContexts w' = Nat.pred (openContexts w)
  | (Throw err, w') =>
      trace w' = trace w /\ openContexts w' = openContexts w
      /\ fst (context_close E B (page w)) = Throw err
  end.
Proof.
  unfold closeContext.
  destruct (await_frame (context_close E B) w) as (R & T & C & _).
  destruct (await E (context_close E B) w) as [[[] | err] w1]; cbn in *; auto.
Qed.

Lemma analyzeLoadedPage_runs (registry : list (string * list (Criterion E)))
    (url i : string) (startTime navigationTime : Z)
    (viewports : list Viewport) (options : Options) (w : World E) :
  exists shots rs w',
    snd (analyzeLoadedPage E B registry url i startTime navigationTime
                           viewports options w) = w'
    /\ map shotKey shots = map viewportKey (targetViewports viewports)
    /\ map keyOf rs = registered E registry
    /\ Forall errorShaped rs
    /\ capturesThenInvocations E registry viewports w w'
    /\ match fst (analyzeLoadedPage E B registry url i startTime navigationTime
                                    viewports options w) with
       | Ok run =>
           screenshots run = shots
           /\ analysis run
              = summarize (mkAcc rs (Z.of_nat (List.length rs)) (countPass rs))
           /\ openContexts w' = Nat.pred (openContexts w)
       | Throw err =>
           openContexts w' = openContexts w
           /\ exists p, fst (context_close E B p) = Throw err
       end.
Proof.
  unfold analyzeLoadedPage, performanceMetric, takeScreenshots.
  unfold bind, now, ret. cbv beta iota zeta.
  match goal with
  | |- context [logger E LInfo ?t w] =>
      destruct (logger_frame LInfo t w) as (w0 & Hl0 & T0 & C0); rewrite Hl0
  end.
  destruct (waitForOption_runs options w0) as (w1 & H1 & T1 & C1 & _).
  rewrite H1.
  destruct (waitForNetworkIdle_runs w1) as (w2 & H2 & T2 & C2 & _).
  rewrite H2.
  destruct (screenshotLoop_runs E B i (targetViewports viewports) [] w2)
    as (shots & w3 & H3 & Hkeys & (caps & T3 & Hcaps) & C3 & _).
  rewrite H3. cbn [app].
  destruct (performEvaluation_runs E B registry navigationTime w3)
    as (rs & w4 & H4 & Hrs & Hshape & [(invs & T4 & Hids & Hdisp) [C4 _]]).
  rewrite H4.
  destruct (getPerformanceMetrics_runs w4) as (m & w5 & H5 & T5 & C5).
  rewrite H5.
  pose proof (closeContext_runs w5) as H6.
  destruct (closeContext E B w5) as [[[] | err] w6].
  - destruct H6 as [T6 C6].
    match goal with
    | |- context [logger E LInfo ?t w6] =>
        destruct (logger_frame LInfo t w6) as (w7 & Hl7 & T7 & C7); rewrite Hl7
    end.
    match goal with
    | |- context [logger E LInfo ?t w7] =>
        destruct (logger_frame LInfo t w7) as (w8 & Hl8 & T8 & C8); rewrite Hl8
    end.
    cbn [fst snd screenshots analysis].
    exists shots, rs, w8. splits; auto; [ | congruence ].
    exists caps, invs. splits; auto.
    rewrite T8, T7, T6, T5, T4, T3, T2, T1, T0, app_assoc. reflexivity.
  - destruct H6 as (T6 & C6 & Hthrow). cbn [fst snd].
    exists shots, rs, w6. splits; auto; [ | congruence | eauto ].
    exists caps, invs. splits; auto.
    rewrite T6, T5, T4, T3, T2, T1, T0, app_assoc. reflexivity.
Qed.

Lemma navigate_runs (registry : list (string * list (Criterion E)))
    (url i : string) (startTime t0 : Z)
    (viewports : list Viewport) (options : Options) (w : World E) :
  let w1 := snd (await E (page_goto E B url (timeout_or_default options)) w) in
  navigate E B registry url i startTime t0 viewports options w
  = match fst (page_goto E B url (timeout_or_default options) (page w)) with
    | Throw err => (Throw err, w1)
    | Ok response =>
        if badResponse response then (Throw (navigationError response), w1)
        else analyzeLoadedPage E B registry url i startTime
               (Date_now E B (outside (page w1)) - t0) viewports options w1
    end.
Proof.
  unfold navigate, bind, throw, now.
  destruct (await_frame (page_goto E B url (timeout_or_default options)) w)
    as (R & _).
  destruct (await E (page_goto E B url (timeout_or_default options)) w)
    as [[response | err] w1]; cbn [fst snd] in *; rewrite <- R; [ | reflexivity ].
  destruct response as [r | ]; [ | reflexivity ].
  cbn [badResponse navigationError]. destruct (ok r); reflexivity.
Qed.

(** Every run of [analyzeUrl]: its events are the navigation start, then
    captures, then invocations; a completed run carries one entry per
    viewport and the summary of one result per registered criterion; a
    failed run throws an [AppError]. *)
Lemma analyzeUrl_runs (registry : list (string * list (Criterion E)))
    (url : string) (viewports : list Viewport) (options : Options) (w : World E) :
  exists pre caps invs,
    trace (snd (analyzeUrl E B registry url viewports options w))
    = (trace w ++ pre ++ caps ++ invs)%list
    /\ Forall isNavigating pre
    /\ Forall (fun ev => exists v, In v (targetViewports viewports) /\ capturedAt v ev) caps
    /\ Forall dispatched invs
    /\ match fst (analyzeUrl E B registry url viewports options w) with
       | Ok run =>
           map shotKey (screenshots run) = map viewportKey (targetViewports viewports)
           /\ map invokedId invs = map snd (registered E registry)
           /\ exists rs,
               analysis run
               = summarize (mkAcc rs (Z.of_nat (List.length rs)) (countPass rs))
               /\ map keyOf rs = registered E registry
               /\ Forall errorShaped rs
       | Throw err => instanceofAppError err = true
       end.
Proof.
  rewrite analyzeUrl_unfold.
  pose proof (untilNavigation_runs url options w) as Hnav.
  destruct (untilNavigation E B url options w) as [[[[i st] t0] | err] wn].
  - destruct Hnav as [Tn _]. unfold try_catch. rewrite navigate_runs.
    destruct (await_frame (page_goto E B url (timeout_or_default options)) wn)
      as (_ & T1 & _).
    set (w1 := snd (await E (page_goto E B url (timeout_or_default options)) wn)) in *.
    assert (Hfail : forall err,
      exists pre caps invs,
        trace (snd (analysisFailed E url options err w1))
        = (trace w ++ pre ++ caps ++ invs)%list
        /\ Forall isNavigating pre
        /\ Forall (fun ev => exists v, In v (targetViewports viewports)
                                       /\ capturedAt v ev) caps
        /\ Forall dispatched invs
        /\ match fst (analysisFailed E url options err w1) with
           | Ok run =>
               map shotKey (screenshots run)
               = map viewportKey (targetViewports viewports)
               /\ map invokedId invs = map snd (registered E registry)
               /\ exists rs,
                   analysis run
                   = summarize (mkAcc rs (Z.of_nat (List.length rs)) (countPass rs))
                   /\ map keyOf rs = registered E registry
                   /\ Forall errorShaped rs
           | Throw err => instanceofAppError err = true
           end).
    { intros err.
      destruct (analysisFailed_throws url options err w1)
        as (err' & w' & Hf & Happ & _ & Tf & _).
      rewrite Hf. cbn [fst snd].
      exists [Navigating t0], [], []. splits; auto.
      - rewrite Tf, T1, Tn, !app_nil_r. reflexivity.
      - repeat constructor. exists t0. reflexivity. }
    destruct (fst (page_goto E B url (timeout_or_default options) (page wn)))
      as [response | err]; [ | apply Hfail ].
    destruct (badResponse response); [ apply Hfail | ].
    destruct (analyzeLoadedPage_runs registry url i st
                (Date_now E B (outside (page w1)) - t0) viewports options w1)
      as (shots & rs & w2 & Hw2 & Hshots & Hkeys & Hshape
          & (caps & invs & T2 & Hcaps & Hids & Hdisp) & Hout).
    destruct (analyzeLoadedPage E B registry url i st _ viewports options w1)
      as [[run | err] w2'] eqn:HL; cbn [fst snd] in *; subst w2'.
    + destruct Hout as (Hs & Ha & _).
      exists [Navigating t0], caps, invs. splits; auto.
      * rewrite T2, T1, Tn, <- !app_assoc. reflexivity.
      * repeat constructor. exists t0. reflexivity.
      * rewrite Hs. exact Hshots.
      * exists rs. auto.
    + destruct (analysisFailed_throws url options err w2)
        as (err' & w' & Hf & Happ & _ & Tf & _).
      rewrite Hf. cbn [fst snd].
      exists [Navigating t0], caps, invs. splits; auto.
      * rewrite Tf, T2, T1, Tn, <- !app_assoc. reflexivity.
      * repeat constructor. exists t0. reflexivity.
  - destruct (analysisFailed_throws url options err wn)
      as (err' & w' & Hf & Happ & _ & Tf & _).
    rewrite Hf. cbn [fst snd].
    exists [], [], []. splits; auto.
    rewrite Tf, Hnav, !app_nil_r. reflexivity.
Qed.

End Run.

(** ** The double-precision score, checked exhaustively up to 500 results *)

Lemma in_range (n : nat) (z : Z) : 0 <= z <= Z.of_nat n -> In z (range n).
Proof.
  intros Hz. unfold range. apply in_map_iff. exists (Z.to_nat z).
  split; [ lia | apply in_seq; lia ].
Qed.

Lemma in_tl_range (n : nat) (z : Z) : 0 < z <= Z.of_nat n -> In z (tl (range n)).
Proof.
  intros Hz. unfold range. cbn [seq map tl]. apply in_map_iff. exists (Z.to_nat z).
  split; [ lia | apply in_seq; lia ].
Qed.

Lemma nearest_percent_checked : nearest_percent_upto 500 = true.
Proof. vm_compute. reflexivity. Qed.

Lemma nearest_percent_upto_spec (n : nat) :
  nearest_percent_upto n = true ->
  forall p t, 0 <= p <= t -> 0 < t <= Z.of_nat n -> nearest_percent p t = true.
Proof.
  unfold nearest_percent_upto. intros Hall p t Hp Ht.
  rewrite forallb_forall in Hall.
  specialize (Hall t (in_tl_range n t Ht)).
  rewrite forallb_forall in Hall.
  apply Hall. apply in_range. lia.
Qed.

Lemma score_nearest (p t : Z) :
  0 <= p <= t -> 0 < t <= 500 ->
  Z.abs (200 * p - 2 * score_of p t * t) <= t /\ 0 <= score_of p t <= 100.
Proof.
  intros Hp Ht.
  assert (Hbound : 0 < t <= Z.of_nat 500) by lia.
  pose proof (nearest_percent_upto_spec 500 nearest_percent_checked p t Hp Hbound)
    as Hnear.
  unfold nearest_percent in Hnear. cbv zeta in Hnear.
  apply andb_prop in Hnear. destruct Hnear as [Hnear H100].
  apply andb_prop in Hnear. destruct Hnear as [Hnear H0].
  apply Z.leb_le in Hnear, H0, H100.
  generalize dependent (score_of p t). intros s Hnear H0 H100.
  lia.
Qed.

(** Away from exact ties the score is the exact percentage rounded half up. *)
Lemma score_exact_off_ties (p t : Z) :
  0 <= p <= t -> 0 < t <= 500 -> (200 * p) mod (2 * t) <> t ->
  score_of p t = (200 * p + t) / (2 * t).
Proof.
  intros Hp Ht Htie.
  destruct (score_nearest p t Hp Ht) as [Hnear _].
  generalize dependent (score_of p t). intros s Hnear.
  apply Z.abs_le in Hnear.
  assert (Hne : 200 * p <> 2 * s * t + t).
  { intros Heq. apply Htie. rewrite Heq.
    replace (2 * s * t + t) with (t + s * (2 * t)) by ring.
    rewrite Z.mod_add by lia. apply Z.mod_small. lia. }
  apply (Z.div_unique_pos (200 * p + t) (2 * t) s (200 * p + t - 2 * t * s)); lia.
Qed.

(** The double-precision product at two exact ties: 12.5 is represented
    exactly and rounds up; 23/40 * 100 is 57.49999999999999 as a double. *)
Example score_at_ties : score_of 1 8 = 13 /\ score_of 23 40 = 57.
Proof. vm_compute. auto. Qed.

(** ** The usability checks and the viewport *)

Section Usability.

Variable E : Type.
Variable B : Browser E.

Lemma ask_viewport {A} (o : Oracle E A) (p : Page E) :
  viewport (snd (ask E o p)) = viewport p.
Proof. unfold ask. destruct (o p). reflexivity. Qed.

(** When use-001's check returns, the page is 375x667. *)
Lemma use_001_sets_viewport (timing : option Z) (p p' : Page E) (o : CheckOutcome) :
  check (use_001 E B) timing p = (Ok o, p') -> viewport p' = (375, 667).
Proof.
  cbn [check use_001]. unfold bind, setViewportSize, ask, ret.
  destruct (page_setViewportSize E B 375 667 p) as [[[] | e1] x1]; [ | discriminate ].
  destruct (page_waitForTimeout E B 1000 _) as [[[] | e2] x2]; [ | discriminate ].
  cbn [viewport outside].
  destruct (page_has E B _ _) as [[b1 | e3] x3]; [ | discriminate ].
  cbn [viewport outside].
  destruct (page_evaluate_bool E B _ _) as [[b2 | e4] x4]; [ | discriminate ].
  intros H. injection H as _ <-. reflexivity.
Qed.

(** use-002 and use-003 read the page and leave its viewport alone,
    whether they return or throw. *)
Lemma use_002_keeps_viewport (timing : option Z) (p : Page E) :
  viewport (snd (check (use_002 E B) timing p)) = viewport p.
Proof.
  cbn [check use_002]. unfold bind, ask, ret.
  destruct (page_count E B _ _ p) as [[n1 | e1] x1]; [ | reflexivity ].
  cbn [viewport outside].
  destruct (page_count E B _ _ _) as [[n2 | e2] x2]; reflexivity.
Qed.

Lemma use_003_keeps_viewport (timing : option Z) (p : Page E) :
  viewport (snd (check (use_003 E B) timing p)) = viewport p.
Proof.
  cbn [check use_003]. unfold bind, ask, ret.
  destruct (page_count E B _ _ p) as [[n1 | e1] x1]; [ | reflexivity ].
  cbn [viewport outside].
  destruct (page_count E B _ _ _) as [[n2 | e2] x2]; reflexivity.
Qed.

Lemma evaluateCategories_app (navigationTime : Z)
    (r1 r2 : list (string * list (Criterion E))) :
  forall (acc : Acc) (w : World E),
    evaluateCategories E B navigationTime (r1 ++ r2)%list acc w
    = match evaluateCategories E B navigationTime r1 acc w with
      | (Ok acc1, w1) => evaluateCategories E B navigationTime r2 acc1 w1
      | (Throw err, w1) => (Throw err, w1)
      end.
Proof.
  induction r1 as [| [category cs] r1 IH]; intros acc w; [ reflexivity | ].
  cbn [app evaluateCategories]. unfold bind.
  destruct (logger E LDebug _ w) as [[[] | err] w0]; [ | reflexivity ].
  destruct (evaluateCriteria E B navigationTime category cs acc w0)
    as [[acc1 | err] w1]; [ apply IH | reflexivity ].
Qed.

(** The usability category of a run: once use-001 has returned, use-002 and
    use-003 are called on a 375x667 page, and the page stays that size. *)
Lemma usability_category_runs (navigationTime : Z) (acc : Acc) (w : World E) :
  exists r1 r2 r3 w',
    evaluateCategories E B navigationTime
      [("usability", [use_001 E B; use_002 E B; use_003 E B])] acc w
    = (Ok (mkAcc (results acc ++ [r1; r2; r3])%list
                 (totalItems acc + 3)
                 (passedItems acc + countPass [r1; r2; r3])), w')
    /\ er_id r1 = "use-001"
    /\ (er_status r1 <> StatusError ->
        trace w' = (trace w ++ [Invoked "use-001" None (viewport (page w));
                                Invoked "use-002" None (375, 667);
                                Invoked "use-003" None (375, 667)])%list
        /\ viewport (page w') = (375, 667)).
Proof.
  cbn [evaluateCategories evaluateCriteria]. unfold bind at 1.
  destruct (logger_frame E LDebug
              ("Evaluating " ++ "usability" ++ " ("
               ++ showZ (Z.of_nat (List.length [use_001 E B; use_002 E B; use_003 E B]))
               ++ " items)") w) as (w0 & Hl & T0 & _).
  assert (P0 : page w0 = page w).
  { unfold logger in Hl. injection Hl as <-. reflexivity. }
  rewrite Hl. unfold bind.
  destruct (evaluateCriterion_runs E B navigationTime "usability" (use_001 E B) acc w0)
    as (r1 & w1 & H1 & K1 & O1 & P1 & T1 & _).
  rewrite H1.
  match goal with
  | |- context [evaluateCriterion E B _ _ (use_002 E B) ?a w1] =>
      destruct (evaluateCriterion_runs E B navigationTime "usability" (use_002 E B) a w1)
        as (r2 & w2 & H2 & K2 & O2 & P2 & T2 & _)
  end.
  rewrite H2.
  match goal with
  | |- context [evaluateCriterion E B _ _ (use_003 E B) ?a w2] =>
      destruct (evaluateCriterion_runs E B navigationTime "usability" (use_003 E B) a w2)
        as (r3 & w3 & H3 & K3 & O3 & P3 & T3 & _)
  end.
  rewrite H3. cbn [results totalItems passedItems ret].
  exists r1, r2, r3, w3. splits.
  - rewrite <- !app_assoc. cbn [app]. unfold ret. do 2 f_equal.
    rewrite !countPass_cons. unfold countPass. cbn [filter List.length].
    f_equal; lia.
  - injection K1 as _ Hid. exact Hid.
  - intros Hok.
    change (timingArgument E B navigationTime (use_001 E B) w0) with (@None Z) in *.
    change (timingArgument E B navigationTime (use_002 E B) w1) with (@None Z) in *.
    change (timingArgument E B navigationTime (use_003 E B) w2) with (@None Z) in *.
    assert (V1 : viewport (page w1) = (375, 667)).
    { rewrite P1.
      destruct (check (use_001 E B) None (page w0)) as [[o | err] p1] eqn:Hc;
        cbn [fst snd] in *.
      - exact (use_001_sets_viewport None _ _ _ Hc).
      - subst r1. exfalso. apply Hok. reflexivity. }
    assert (V2 : viewport (page w2) = (375, 667)).
    { rewrite P2, use_002_keeps_viewport. exact V1. }
    split.
    + rewrite T3, T2, T1, T0, V1, V2, P0, <- !app_assoc. reflexivity.
    + rewrite P3, use_003_keeps_viewport. exact V2.
Qed.

End Usability.

(** ** Results, one by one *)

Section Judged.

Variable E : Type.
Variable B : Browser E.

Lemma evaluateCriterion_judged (navigationTime : Z) (category : string)
    (c : Criterion E) (acc : Acc) (w : World E) :
  exists r w',
    evaluateCriterion E B navigationTime category c acc w
    = (Ok (mkAcc (results acc ++ [r])%list (totalItems acc + 1)
                 (passedItems acc + (if is_pass (er_status r) then 1 else 0))), w')
    /\ judgedAt E B navigationTime (category, c) w r.
Proof.
  destruct (evaluateCriterion_runs E B navigationTime category c acc w)
    as (r & w' & Hstep & Hkey & Hout & _).
  exists r, w'. split; [ exact Hstep | ].
  unfold judgedAt, checkOutcome. cbn [fst snd]. split; [ exact Hkey | ].
  destruct (fst (check c (timingArgument E B navigationTime c w) (page w)))
    as [o | err]; [ exact Hout | ].
  subst r. unfold thrownResult, errorResult. cbn. auto.
Qed.

Lemma evaluateCriteria_judged (navigationTime : Z) (category : string)
    (cs : list (Criterion E)) :
  forall (acc acc' : Acc) (w w' : World E),
    evaluateCriteria E B navigationTime category cs acc w = (Ok acc', w') ->
    exists rs,
      results acc' = (results acc ++ rs)%list
      /\ Forall2 (judged E B navigationTime) (map (pair category) cs) rs.
Proof.
  induction cs as [| c cs IH]; intros acc acc' w w' Hrun.
  - cbn in Hrun. injection Hrun as <- _. exists []. rewrite app_nil_r. auto.
  - cbn [evaluateCriteria] in Hrun. unfold bind in Hrun.
    destruct (evaluateCriterion_judged navigationTime category c acc w)
      as (r & w1 & Hstep & Hr).
    rewrite Hstep in Hrun.
    destruct (IH _ _ _ _ Hrun) as (rs & Hres & Hall).
    cbn [results] in Hres.
    exists (r :: rs). split.
    + rewrite Hres, <- app_assoc. reflexivity.
    + cbn [map]. constructor; [ | exact Hall ]. exists w. exact Hr.
Qed.

Lemma evaluateCategories_judged (navigationTime : Z)
    (registry : list (string * list (Criterion E))) :
  forall (acc acc' : Acc) (w w' : World E),
    evaluateCategories E B navigationTime registry acc w = (Ok acc', w') ->
    exists rs,
      results acc' = (results acc ++ rs)%list
      /\ Forall2 (judged E B navigationTime) (criteriaOf E registry) rs.
Proof.
  induction registry as [| [category cs] registry IH]; intros acc acc' w w' Hrun.
  - cbn in Hrun. injection Hrun as <- _. exists []. rewrite app_nil_r.
    split; [ reflexivity | constructor ].
  - cbn [evaluateCategories] in Hrun. unfold bind in Hrun.
    destruct (logger E LDebug _ w) as [[[] | err] w0] eqn:Hlog;
      [ | unfold logger in Hlog; discriminate ].
    destruct (evaluateCriteria E B navigationTime category cs acc w0)
      as [[acc1 | err] w1] eqn:Hcs; [ | discriminate ].
    destruct (evaluateCriteria_judged _ _ _ _ _ _ _ Hcs) as (rs1 & Hres1 & Hall1).
    destruct (IH _ _ _ _ Hrun) as (rs2 & Hres2 & Hall2).
    exists (rs1 ++ rs2)%list. split.
    + rewrite Hres2, Hres1, app_assoc. reflexivity.
    + cbn [criteriaOf flat_map fst snd]. apply Forall2_app; assumption.
Qed.

(** The results of an evaluation, one by one: the [i]-th result is the one
    of the iteration for the [i]-th registered criterion. *)
Lemma performEvaluation_judged (registry : list (string * list (Criterion E)))
    (navigationTime : Z) (w w' : World E) (a : Analysis) :
  performEvaluation E B registry navigationTime w = (Ok a, w') ->
  Forall2 (judged E B navigationTime) (criteriaOf E registry) (items a).
Proof.
  unfold performEvaluation, bind. intros Hrun.
  destruct (logger E LInfo _ w) as [[[] | err] w0] eqn:Hlog;
    [ | unfold logger in Hlog; discriminate ].
  destruct (evaluateCategories E B navigationTime registry (mkAcc [] 0 0) w0)
    as [[acc | err] w1] eqn:Hcats; [ | discriminate ].
  destruct (evaluateCategories_judged _ _ _ _ _ _ Hcats) as (rs & Hres & Hall).
  cbn [results app] in Hres.
  unfold logger, ret in Hrun. injection Hrun as <- _.
  cbn [summarize items]. rewrite Hres. exact Hall.
Qed.

Lemma Forall2_In_r {A C} (R : A -> C -> Prop) (l1 : list A) (l2 : list C) :
  Forall2 R l1 l2 -> forall y, In y l2 -> exists x, In x l1 /\ R x y.
Proof.
  induction 1 as [| x0 y0 l1 l2 Hxy Hall IH]; intros y Hin; [ destruct Hin | ].
  destruct Hin as [<- | Hin].
  - exists x0. split; [ left; reflexivity | exact Hxy ].
  - destruct (IH y Hin) as (x & Hx & Hr). exists x. split; [ right; exact Hx | exact Hr ].
Qed.

(** An 'error' result among judged results belongs to a registered
    criterion whose check threw, and carries that error's message. *)
Lemma judged_error (registry : list (string * list (Criterion E)))
    (navigationTime : Z) (rs : list EvaluationResult) (r : EvaluationResult) :
  Forall2 (judged E B navigationTime) (criteriaOf E registry) rs ->
  In r rs ->
  er_status r = StatusError ->
  er_checkTime r = 0
  /\ er_recommendations r = ["Unable to evaluate - check page accessibility"]
  /\ exists cc w0 err,
       In cc (criteriaOf E registry)
       /\ (er_category r, er_id r) = (fst cc, id (snd cc))
       /\ checkOutcome E B navigationTime (snd cc) w0 = Throw err
       /\ er_details r = "Evaluation failed: " ++ message err.
Proof.
  intros Hall Hin Hstatus.
  destruct (Forall2_In_r _ _ _ Hall r Hin) as (cc & Hcc & w0 & Hkey & Hout).
  destruct (checkOutcome E B navigationTime (snd cc) w0) as [o | err] eqn:Hcheck.
  - rewrite Hout in Hstatus. discriminate Hstatus.
  - destruct Hout as (_ & Ht & Hr & Hd). splits; [ exact Ht | exact Hr | ].
    exists cc, w0, err. splits; auto.
Qed.

(** The analysis of a run is the outcome of an evaluation. *)
Lemma analyzeLoadedPage_analysis (registry : list (string * list (Criterion E)))
    (url i : string) (startTime navigationTime : Z)
    (viewports : list Viewport) (options : Options) (w : World E) (run : AnalysisRun) :
  fst (analyzeLoadedPage E B registry url i startTime navigationTime
                         viewports options w) = Ok run ->
  exists wp wp',
    performEvaluation E B registry navigationTime wp = (Ok (analysis run), wp').
Proof.
  unfold analyzeLoadedPage, bind, now, ret. intros H.
  repeat step_in H. cbn [fst] in H. injection H as <-. cbn [analysis].
  match goal with
  | Hp : performEvaluation E B registry navigationTime ?wp = (Ok _, ?wp') |- _ =>
      exists wp, wp'; exact Hp
  end.
Qed.

Lemma analyzeUrl_analysis (registry : list (string * list (Criterion E)))
    (url : string) (viewports : list Viewport) (options : Options) (w : World E)
    (run : AnalysisRun) :
  fst (analyzeUrl E B registry url viewports options w) = Ok run ->
  exists navigationTime wp wp',
    performEvaluation E B registry navigationTime wp = (Ok (analysis run), wp').
Proof.
  rewrite analyzeUrl_unfold.
  destruct (untilNavigation E B url options w) as [[[[i st] t0] | err] wn].
  - unfold try_catch. rewrite navigate_runs.
    set (w1 := snd (await E (page_goto E B url (timeout_or_default options)) wn)) in *.
    assert (Hfail : forall err (Q : Prop),
              fst (analysisFailed E url options err w1) = Ok run -> Q).
    { intros err Q H.
      destruct (analysisFailed_throws E url options err w1) as (e' & w' & Hf & _).
      rewrite Hf in H. discriminate H. }
    destruct (fst (page_goto E B url (timeout_or_default options) (page wn)))
      as [response | err]; [ | apply Hfail ].
    destruct (badResponse response); [ apply Hfail | ].
    pose proof (analyzeLoadedPage_analysis registry url i st
                  (Date_now E B (outside (page w1)) - t0) viewports options w1)
      as Han.
    destruct (analyzeLoadedPage E B registry url i st _ viewports options w1)
      as [[run' | err] w2] eqn:HL; cbn [fst snd] in *.
    + intros Heq. injection Heq as ->.
      destruct (Han run eq_refl) as (wp & wp' & Hp). eauto.
    + intros H.
      destruct (analysisFailed_throws E url options err w2) as (e' & w' & Hf & _).
      rewrite Hf in H. discriminate H.
  - intros H.
    destruct (analysisFailed_throws E url options err wn) as (e' & w' & Hf & _).
    rewrite Hf in H. discriminate H.
Qed.

End Judged.

(** * The claims *)

Section Claims.

Variable E : Type.
Variable B : Browser E.

Lemma summarize_items (rs : list EvaluationResult) (t p : Z) :
  items (summarize (mkAcc rs t p)) = rs.
Proof. reflexivity. Qed.

Lemma summarize_countsAgree (rs : list EvaluationResult) :
  countsAgree (summarize (mkAcc rs (Z.of_nat (List.length rs)) (countPass rs))).
Proof.
  unfold countsAgree. cbn. splits; [ lia | reflexivity | reflexivity ].
Qed.

Lemma summarize_score (rs : list EvaluationResult) :
  scoreIsRoundedPercentage
    (summarize (mkAcc rs (Z.of_nat (List.length rs)) (countPass rs))).
Proof.
  unfold scoreIsRoundedPercentage, score_of. cbn [summarize summary items results
    totalItems passedItems total passed score].
  splits; try reflexivity.
  - intros Hpos. unfold score_of.
    destruct (Z.gtb_spec (Z.of_nat (List.length rs)) 0); [ reflexivity | lia ].
  - intros Hz. unfold score_of. rewrite Hz. reflexivity.
Qed.

(** C1. For every completed analysis run, summary.passed + summary.failed
    = summary.total = the length of the result list, and summary.passed is
    the number of results whose status is 'pass'.  It holds of every
    evaluation (which always completes) and of the analysis carried by
    every run [analyzeUrl] returns. *)
Theorem summary_counts_agree :
  (forall registry navigationTime (w : World E),
     exists a w',
       performEvaluation E B registry navigationTime w = (Ok a, w')
       /\ countsAgree a)
  /\ (forall registry url viewports options (w : World E) run,
        fst (analyzeUrl E B registry url viewports options w) = Ok run ->
        countsAgree (analysis run)).
Proof.
  split.
  - intros registry navigationTime w.
    destruct (performEvaluation_runs E B registry navigationTime w)
      as (rs & w' & Hrun & _).
    eexists; eexists. split; [ exact Hrun | apply summarize_countsAgree ].
  - intros registry url viewports options w run Hrun.
    destruct (analyzeUrl_runs E B registry url viewports options w)
      as (pre & caps & invs & _ & _ & _ & _ & Hout).
    rewrite Hrun in Hout. destruct Hout as (_ & _ & rs & Ha & _).
    rewrite Ha. apply summarize_countsAgree.
Qed.

(** C2. The summary's score is round(passed/total x 100), computed as the
    service computes it, in double precision with [Math.round]: passed and
    total are the counts over the result list, the score is 0 when total
    is 0, and 45 passes out of 67 give 67.  For up to 500 results the score
    is an integer percentage between 0 and 100 within one half of the
    exact value of 100 passed / total, and it is that value rounded half up
    unless the value lies exactly halfway between two integers. *)
Theorem score_is_rounded_percentage :
  (forall registry navigationTime (w : World E),
     exists a w',
       performEvaluation E B registry navigationTime w = (Ok a, w')
       /\ scoreIsRoundedPercentage a)
  /\ (forall a, scoreIsRoundedPercentage a ->
        total (summary a) = 67 -> passed (summary a) = 45 ->
        score (summary a) = 67)
  /\ (forall p t, 0 <= p <= t -> 0 < t <= 500 ->
        Z.abs (200 * p - 2 * score_of p t * t) <= t /\ 0 <= score_of p t <= 100)
  /\ (forall p t, 0 <= p <= t -> 0 < t <= 500 -> (200 * p) mod (2 * t) <> t ->
        score_of p t = (200 * p + t) / (2 * t)).
Proof.
  splits.
  - intros registry navigationTime w.
    destruct (performEvaluation_runs E B registry navigationTime w)
      as (rs & w' & Hrun & _).
    eexists; eexists. split; [ exact Hrun | apply summarize_score ].
  - intros a (_ & _ & Hscore & _) Ht Hp.
    rewrite Hscore by lia. rewrite Ht, Hp. vm_compute. reflexivity.
  - exact score_nearest.
  - exact score_exact_off_ties.
Qed.

(** C3. A criterion whose check throws or rejects gets an 'error' result
    and the loop goes on: the evaluation always completes, its result list
    holds exactly one result per registered criterion, in registry order,
    and every registered criterion's check has been called. *)
Theorem failing_check_does_not_stop_evaluation :
  (forall navigationTime category (c : Criterion E) acc (w : World E) err,
     fst (check c (timingArgument E B navigationTime c w) (page w)) = Throw err ->
     exists w',
       evaluateCriterion E B navigationTime category c acc w
       = (Ok (mkAcc (results acc ++ [errorResult E category c err])%list
                    (totalItems acc + 1) (passedItems acc)), w'))
  /\ (forall registry navigationTime (w : World E),
        exists a w',
          performEvaluation E B registry navigationTime w = (Ok a, w')
          /\ map keyOf (items a) = registered E registry
          /\ invocations (map snd (registered E registry)) w w').
Proof.
  split.
  - intros navigationTime category c acc w err Hthrow.
    destruct (evaluateCriterion_runs E B navigationTime category c acc w)
      as (r & w' & Hstep & _ & Hout & _).
    rewrite Hthrow in Hout. subst r. exists w'. rewrite Hstep.
    cbn [errorResult er_status is_pass]. rewrite Z.add_0_r. reflexivity.
  - intros registry navigationTime w.
    destruct (performEvaluation_runs E B registry navigationTime w)
      as (rs & w' & Hrun & Hkeys & _ & Hinv).
    eexists; eexists. split; [ exact Hrun | ].
    rewrite summarize_items. split; assumption.
Qed.

(** C4. A result has status 'error' exactly when its criterion's check
    threw, and then it has the shape the [catch] branch gives it: status
    'error', checkTime 0, the single recommendation 'Unable to evaluate -
    check page accessibility' and the details 'Evaluation failed: '
    followed by the message of the very error the check threw.  This holds
    of each iteration, of every result of an evaluation, in registry order,
    and of the analysis of every run [analyzeUrl] returns. *)
Theorem error_results_are_shaped :
  (forall navigationTime category (c : Criterion E) acc (w : World E),
     exists r w',
       evaluateCriterion E B navigationTime category c acc w
       = (Ok (mkAcc (results acc ++ [r])%list (totalItems acc + 1)
                    (passedItems acc + (if is_pass (er_status r) then 1 else 0))), w')
       /\ match checkOutcome E B navigationTime c w with
          | Throw err =>
              er_status r = StatusError
              /\ er_checkTime r = 0
              /\ er_recommendations r = ["Unable to evaluate - check page accessibility"]
              /\ er_details r = "Evaluation failed: " ++ message err
          | Ok o => er_status r = Checked (co_status o)
          end)
  /\ (forall registry navigationTime (w : World E),
        exists a w',
          performEvaluation E B registry navigationTime w = (Ok a, w')
          /\ Forall2 (judged E B navigationTime) (criteriaOf E registry) (items a)
          /\ forall r,
               In r (items a) ->
               er_status r = StatusError ->
               er_checkTime r = 0
               /\ er_recommendations r = ["Unable to evaluate - check page accessibility"]
               /\ exists cc w0 err,
                    In cc (criteriaOf E registry)
                    /\ (er_category r, er_id r) = (fst cc, id (snd cc))
                    /\ checkOutcome E B navigationTime (snd cc) w0 = Throw err
                    /\ er_details r = "Evaluation failed: " ++ message err)
  /\ (forall registry url viewports options (w : World E) run,
        fst (analyzeUrl E B registry url viewports options w) = Ok run ->
        forall r,
          In r (items (analysis run)) ->
          er_status r = StatusError ->
          er_checkTime r = 0
          /\ er_recommendations r = ["Unable to evaluate - check page accessibility"]
          /\ exists navigationTime cc w0 err,
               In cc (criteriaOf E registry)
               /\ (er_category r, er_id r) = (fst cc, id (snd cc))
               /\ checkOutcome E B navigationTime (snd cc) w0 = Throw err
               /\ er_details r = "Evaluation failed: " ++ message err).
Proof.
  splits.
  - intros navigationTime category c acc w.
    destruct (evaluateCriterion_judged E B navigationTime category c acc w)
      as (r & w' & Hstep & _ & Hout).
    exists r, w'. split; [ exact Hstep | exact Hout ].
  - intros registry navigationTime w.
    destruct (performEvaluation_runs E B registry navigationTime w)
      as (rs & w' & Hrun & _).
    pose proof (performEvaluation_judged E B _ _ _ _ _ Hrun) as Hall.
    eexists; exists w'. splits; [ exact Hrun | exact Hall | ].
    intros r Hin Hstatus.
    exact (judged_error E B registry navigationTime _ r Hall Hin Hstatus).
  - intros registry url viewports options w run Hrun r Hin Hstatus.
    destruct (analyzeUrl_analysis E B registry url viewports options w run Hrun)
      as (navigationTime & wp & wp' & Hp).
    pose proof (performEvaluation_judged E B _ _ _ _ _ Hp) as Hall.
    destruct (judged_error E B registry navigationTime _ r Hall Hin Hstatus)
      as (Ht & Hr & cc & w0 & err & H).
    splits; [ exact Ht | exact Hr | ]. exists navigationTime, cc, w0, err. exact H.
Qed.

(** C5. When the navigation yields no response or a response that is not
    ok (a non-2xx status), [analyzeUrl] throws the 502 [AppError] for it
    (PAGE_LOAD_FAILED or HTTP_ERROR): the caller gets the error and no
    analysis, and the run has recorded its navigation start and nothing
    else, so no screenshot was captured and no check was called. *)
Theorem failed_navigation_aborts :
  forall registry url viewports options (w : World E) i startTime t0 wn response,
    untilNavigation E B url options w = (Ok (i, startTime, t0), wn) ->
    fst (page_goto E B url (timeout_or_default options) (page wn)) = Ok response ->
    badResponse response = true ->
    exists w',
      analyzeUrl E B registry url viewports options w
      = (Throw (navigationError response), w')
      /\ (exists msg code details,
            navigationError response = AppError msg 502 code details
            /\ (code = "PAGE_LOAD_FAILED" \/ code = "HTTP_ERROR"))
      /\ trace w' = (trace w ++ [Navigating t0])%list.
Proof.
  intros registry url viewports options w i startTime t0 wn response Hnav Hgoto Hbad.
  rewrite analyzeUrl_unfold.
  pose proof (untilNavigation_runs E B url options w) as Htrace.
  rewrite Hnav in *. destruct Htrace as [Tn _].
  unfold try_catch. rewrite navigate_runs, Hgoto, Hbad.
  destruct (await_frame E (page_goto E B url (timeout_or_default options)) wn)
    as (_ & T1 & _).
  destruct (analysisFailed_throws E url options (navigationError response)
              (snd (await E (page_goto E B url (timeout_or_default options)) wn)))
    as (err' & w' & Hf & _ & Hsame & Tf & _).
  rewrite Hf. exists w'. splits.
  - rewrite Hsame; [ reflexivity | ]. destruct response; reflexivity.
  - destruct response as [r | ]; cbn; eauto 10.
  - congruence.
Qed.

(** C7. [takeScreenshots] returns one entry per target viewport, in order,
    with the viewport's name, width and height; the targets are the
    caller's viewports, or the four default ones when the caller gives
    none.  The entry of a viewport is the capture's result when the capture
    of that viewport succeeds and an error entry when it throws, whatever
    happened to the viewports before it. *)
Theorem one_screenshot_entry_per_viewport :
  targetViewports []
  = [ mkViewport "mobile" 375 667; mkViewport "tablet" 768 1024;
      mkViewport "desktop" 1920 1080; mkViewport "4k" 3840 2160 ]
  /\ (forall v vs, targetViewports (v :: vs) = v :: vs)
  /\ forall analysisId viewports (w : World E),
       exists shots w',
         takeScreenshots E B analysisId viewports w = (Ok shots, w')
         /\ List.length shots = List.length (targetViewports viewports)
         /\ map shotKey shots = map viewportKey (targetViewports viewports)
         /\ forall i v,
              nth_error (targetViewports viewports) i = Some v ->
              exists shot,
                nth_error shots i = Some shot
                /\ match fst (captureViewport E B analysisId v
                                (worldAtViewport E B analysisId
                                   (targetViewports viewports) i w)) with
                   | Ok captured => shot = captured /\ shot_error shot = None
                   | Throw err => shot = errorShot v err
                   end.
Proof.
  splits; try reflexivity.
  intros analysisId viewports w. unfold takeScreenshots.
  destruct (screenshotLoop_runs E B analysisId (targetViewports viewports) [] w)
    as (shots & w' & Hrun & Hkeys & _ & _ & _ & Hnth).
  exists shots, w'. splits; auto.
  rewrite <- (length_map shotKey), Hkeys, length_map. reflexivity.
Qed.

(** C8. The best-effort waits never fail a run.  The wait for
    [options.waitFor] and the wait for network idle always complete; when
    the awaited call throws, a warning is logged and nothing else changes
    but the page.  After a successful navigation the run therefore always
    goes on to capture and to call every registered criterion's check, and
    the only error it can end with is one thrown by [context.close()]. *)
Theorem best_effort_waits_never_fail :
  (forall options (w : World E),
     exists w',
       waitForOption E B options w = (Ok tt, w')
       /\ forall selector err,
            waitFor_selector options = Some selector ->
            fst (page_waitForSelector E B selector 10000 (page w)) = Throw err ->
            logs w'
            = (logs w ++ [mkLog LWarn ("Wait for selector failed: " ++ selector)])%list)
  /\ (forall (w : World E),
        exists w',
          waitForNetworkIdle E B w = (Ok tt, w')
          /\ forall err,
               fst (page_waitForLoadState E B "networkidle" 15000 (page w)) = Throw err ->
               logs w'
               = (logs w ++ [mkLog LWarn "Network idle timeout - continuing with analysis"])%list)
  /\ (forall registry url i startTime navigationTime viewports options (w : World E),
        capturesThenInvocations E registry viewports w
          (snd (analyzeLoadedPage E B registry url i startTime navigationTime
                                  viewports options w))
        /\ match fst (analyzeLoadedPage E B registry url i startTime navigationTime
                                        viewports options w) with
           | Ok run => map keyOf (items (analysis run)) = registered E registry
           | Throw err => exists p, fst (context_close E B p) = Throw err
           end).
Proof.
  splits.
  - intros options w.
    destruct (waitForOption_runs E B options w) as (w' & Hrun & _ & _ & _ & Hlog).
    exists w'. split; [ exact Hrun | ].
    intros selector err Hsel Hthrow. specialize (Hlog selector Hsel).
    rewrite Hthrow in Hlog. exact Hlog.
  - intros w.
    destruct (waitForNetworkIdle_runs E B w) as (w' & Hrun & _ & _ & _ & Hlog).
    exists w'. split; [ exact Hrun | ].
    intros err Hthrow. rewrite Hthrow in Hlog. exact Hlog.
  - intros registry url i startTime navigationTime viewports options w.
    destruct (analyzeLoadedPage_runs E B registry url i startTime navigationTime
                viewports options w)
      as (shots & rs & w' & Hw' & _ & Hkeys & _ & Hevents & Hout).
    rewrite Hw'. split; [ exact Hevents | ].
    destruct (fst (analyzeLoadedPage E B registry url i startTime navigationTime
                                     viewports options w)) as [run | err].
    + destruct Hout as (_ & Ha & _). rewrite Ha, summarize_items. exact Hkeys.
    + destruct Hout as (_ & Hclose). exact Hclose.
Qed.


(** C10. use-001's check sets the live page to 375x667 and returns without
    restoring the size.  In a run over the registry, once that check has
    returned (its result is not an error), use-002 and use-003, the checks
    after it, are called on a 375x667 page and the page keeps that size.
    In every run of [analyzeUrl] all captures precede all check calls, and
    each capture runs at the size of its own viewport. *)
Theorem mobile_check_leaves_viewport :
  (forall timing (p p' : Page E) o,
     check (use_001 E B) timing p = (Ok o, p') -> viewport p' = (375, 667))
  /\ (forall navigationTime (w : World E),
        exists a w',
          performEvaluation E B (fullEvaluationCriteria E B) navigationTime w
          = (Ok a, w')
          /\ ((forall r, In r (items a) -> er_id r = "use-001" ->
                         er_status r <> StatusError) ->
              exists evs vp0,
                trace w'
                = (trace w ++ evs
                   ++ [Invoked "use-001" None vp0;
                       Invoked "use-002" None (375, 667);
                       Invoked "use-003" None (375, 667)])%list
                /\ viewport (page w') = (375, 667)))
  /\ (forall registry url viewports options (w : World E),
        exists pre caps invs,
          trace (snd (analyzeUrl E B registry url viewports options w))
          = (trace w ++ pre ++ caps ++ invs)%list
          /\ Forall isNavigating pre
          /\ Forall (fun ev => exists v, In v (targetViewports viewports)
                                         /\ capturedAt v ev) caps
          /\ Forall (fun ev => is_invocation ev = true) invs).
Proof.
  splits.
  - intros timing p p' o. apply use_001_sets_viewport.
  - intros navigationTime w.
    unfold performEvaluation. unfold bind at 1.
    destruct (logger_invocations E LInfo "🔍 Starting 67-point evaluation..." w)
      as (w0 & Hlog & [(ev0 & T0 & I0 & _) _] & _).
    apply map_eq_nil in I0. subst ev0. rewrite app_nil_r in T0.
    rewrite Hlog. unfold bind at 1.
    change (fullEvaluationCriteria E B)
      with (firstn 4 (fullEvaluationCriteria E B)
            ++ [("usability", [use_001 E B; use_002 E B; use_003 E B])])%list.
    rewrite evaluateCategories_app.
    destruct (evaluateCategories_runs E B navigationTime
                (firstn 4 (fullEvaluationCriteria E B)) (mkAcc [] 0 0) w0)
      as (rs & w1 & Hrun1 & _ & _ & [(ev1 & T1 & _) _]).
    rewrite Hrun1.
    match goal with
    | |- context [evaluateCategories E B navigationTime _ ?a w1] =>
        destruct (usability_category_runs E B navigationTime a w1)
          as (r1 & r2 & r3 & w2 & Hrun2 & Hid & Hview)
    end.
    rewrite Hrun2. unfold bind.
    match goal with
    | |- context [logger E LInfo ?t w2] =>
        destruct (logger_invocations E LInfo t w2)
          as (w3 & Hlog3 & [(ev3 & T3 & I3 & _) _] & P3);
        rewrite Hlog3
    end.
    apply map_eq_nil in I3. subst ev3. rewrite app_nil_r in T3.
    eexists; exists w3. split; [ reflexivity | ].
    cbn [summarize items results app]. intros Hok.
    destruct Hview as [T2 V2].
    { apply Hok; [ | exact Hid ]. apply in_or_app. right. left. reflexivity. }
    exists ev1, (viewport (page w1)). split.
    + rewrite T3, T2, T1, T0, <- app_assoc. reflexivity.
    + rewrite P3. exact V2.
  - intros registry url viewports options w.
    destruct (analyzeUrl_runs E B registry url viewports options w)
      as (pre & caps & invs & Htrace & Hpre & Hcaps & Hdisp & _).
    exists pre, caps, invs. splits; auto.
    eapply Forall_impl; [ | exact Hdisp ].
    intros [t | n v | i t v]; cbn; intros H; [ contradiction | contradiction | reflexivity ].
Qed.

End Claims.

(** * The claims on the laboratory browser *)

(** C6, on the code.  Against a site that answers HTTP 500, [analyzeUrl]
    opens a browser context, throws the HTTP_ERROR [AppError], and leaves
    the context open: [context.close()] is only reached on the success
    path. *)
Theorem context_left_open_after_http_500 :
  openContexts labWorld = 0%nat
  /\ fst (labRun failing500)
     = Throw (AppError "HTTP 500: status text" 502 "HTTP_ERROR"
                       [("status", DNum 500); ("statusText", DStr "status text")])
  /\ openContexts (snd (labRun failing500)) = 1%nat.
Proof. vm_compute. auto. Qed.

(** On the success path the context is closed. *)
Example context_closed_after_success :
  (exists run, fst (labRun healthy) = Ok run)
  /\ openContexts (snd (labRun healthy)) = 0%nat.
Proof. vm_compute. eauto. Qed.


(** ** The theorems applied on laboratory runs *)

Lemma summary_counts_agree_witness :
  exists run, fst (labRun healthy) = Ok run /\ countsAgree (analysis run).
Proof.
  eexists. split.
  - vm_compute. reflexivity.
  - apply (proj2 (summary_counts_agree Z (labBrowser healthy))
             (labRegistry healthy) labUrl [] noOptions labWorld).
    vm_compute. reflexivity.
Defined.

Lemma score_is_rounded_percentage_witness :
  (exists a, fst (performEvaluation Z (labBrowser healthy) scenario67 200 labWorld) = Ok a
             /\ total (summary a) = 67 /\ passed (summary a) = 45
             /\ failed (summary a) = 22 /\ score (summary a) = 67)
  /\ Z.abs (200 * 45 - 2 * score_of 45 67 * 67) <= 67
  /\ 0 <= score_of 45 67 <= 100.
Proof.
  split.
  - destruct (proj1 (score_is_rounded_percentage Z (labBrowser healthy))
                scenario67 200 labWorld) as (a & w' & Hrun & Hscore).
    exists a. rewrite Hrun. vm_compute in Hrun. injection Hrun as Ha _.
    assert (Ht : total (summary a) = 67) by (rewrite <- Ha; reflexivity).
    assert (Hp : passed (summary a) = 45) by (rewrite <- Ha; reflexivity).
    assert (Hf : failed (summary a) = 22) by (rewrite <- Ha; reflexivity).
    splits; auto.
    apply (proj1 (proj2 (score_is_rounded_percentage Z (labBrowser healthy))) a);
      assumption.
  - apply (proj1 (proj2 (proj2 (score_is_rounded_percentage Z (labBrowser healthy)))));
      lia.
Defined.

Lemma failing_check_does_not_stop_evaluation_witness :
  (exists w',
     evaluateCriterion Z (labBrowser flaky) 200 "seo" flakyTitleTag onePassed labWorld
     = (Ok (mkAcc (results onePassed
                   ++ [errorResult Z "seo" flakyTitleTag contextDestroyed])%list
                  2 1), w'))
  /\ exists a w',
       performEvaluation Z (labBrowser flaky) (labRegistry flaky) 200 labWorld
       = (Ok a, w')
       /\ map keyOf (items a) = registered Z (labRegistry flaky)
       /\ List.length (items a) = 33%nat
       /\ nth_error (items a) 23
          = Some (errorResult Z "seo" flakyTitleTag contextDestroyed)
       /\ map (fun r => (er_id r, er_status r)) (skipn 24 (items a))
          = [("seo-002", Checked Pass); ("seo-003", Checked Pass);
             ("seo-004", Checked Pass); ("sec-001", Checked Pass);
             ("sec-002", Checked Pass); ("sec-003", Checked Pass);
             ("use-001", Checked Pass); ("use-002", Checked Pass);
             ("use-003", Checked Warning)].
Proof.
  split.
  - apply (proj1 (failing_check_does_not_stop_evaluation Z (labBrowser flaky))
             200 "seo" flakyTitleTag onePassed labWorld contextDestroyed).
    reflexivity.
  - destruct (proj2 (failing_check_does_not_stop_evaluation Z (labBrowser flaky))
                (labRegistry flaky) 200 labWorld) as (a & w' & Hrun & Hkeys & _).
    exists a, w'. split; [ exact Hrun | ]. split; [ exact Hkeys | ].
    vm_compute in Hrun. injection Hrun as <- _.
    splits; vm_compute; reflexivity.
Defined.

Lemma error_results_are_shaped_witness :
  exists a w' r,
    performEvaluation Z (labBrowser flaky) (labRegistry flaky) 200 labWorld = (Ok a, w')
    /\ nth_error (items a) 23 = Some r
    /\ er_id r = "seo-001"
    /\ er_status r = StatusError
    /\ er_details r = "Evaluation failed: Execution context was destroyed"
    /\ er_checkTime r = 0
    /\ er_recommendations r = ["Unable to evaluate - check page accessibility"]
    /\ exists cc w0 err,
         In cc (criteriaOf Z (labRegistry flaky))
         /\ (er_category r, er_id r) = (fst cc, id (snd cc))
         /\ checkOutcome Z (labBrowser flaky) 200 (snd cc) w0 = Throw err
         /\ er_details r = "Evaluation failed: " ++ message err.
Proof.
  destruct (proj1 (proj2 (error_results_are_shaped Z (labBrowser flaky)))
              (labRegistry flaky) 200 labWorld) as (a & w' & Hrun & _ & Hshape).
  exists a, w', (errorResult Z "seo" flakyTitleTag contextDestroyed).
  split; [ exact Hrun | ].
  assert (Hnth : nth_error (items a) 23
                 = Some (errorResult Z "seo" flakyTitleTag contextDestroyed)).
  { vm_compute in Hrun. injection Hrun as <- _. vm_compute. reflexivity. }
  split; [ exact Hnth | ].
  split; [ reflexivity | ]. split; [ reflexivity | ]. split; [ reflexivity | ].
  apply Hshape; [ exact (nth_error_In _ _ Hnth) | reflexivity ].
Defined.

Lemma failed_navigation_aborts_witness :
  exists w',
    labRun failing500
    = (Throw (navigationError (Some (mkResponse false 500 "status text"))), w')
    /\ trace w' = [Navigating 1000].
Proof.
  edestruct (failed_navigation_aborts Z (labBrowser failing500) (labRegistry failing500)
               labUrl [] noOptions labWorld)
    as (w' & Hrun & _ & Htrace).
  - vm_compute. reflexivity.
  - vm_compute. reflexivity.
  - reflexivity.
  - exists w'. split; [ exact Hrun | exact Htrace ].
Defined.

Lemma one_screenshot_entry_per_viewport_witness :
  exists shots,
    fst (takeScreenshots Z (labBrowser flaky) "run-1" [] labWorld) = Ok shots
    /\ List.length shots = 4%nat
    /\ exists shot, nth_error shots 1 = Some shot
                    /\ shot_error shot = Some "page.setViewportSize: Target closed".
Proof.
  destruct (proj2 (proj2 (one_screenshot_entry_per_viewport Z (labBrowser flaky)))
              "run-1" [] labWorld)
    as (shots & w' & Hrun & Hlen & _ & Hnth).
  exists shots. rewrite Hrun. splits; [ reflexivity | exact Hlen | ].
  destruct (Hnth 1%nat (mkViewport "tablet" 768 1024) eq_refl) as (shot & Hi & Hm).
  exists shot. split; [ exact Hi | ].
  vm_compute in Hm. rewrite Hm. reflexivity.
Defined.

Lemma best_effort_waits_never_fail_witness :
  exists w',
    waitForOption Z (labBrowser flaky) waitForApp labWorld = (Ok tt, w')
    /\ logs w' = [mkLog LWarn "Wait for selector failed: #app"].
Proof.
  destruct (proj1 (best_effort_waits_never_fail Z (labBrowser flaky))
              waitForApp labWorld) as (w' & Hrun & Hlog).
  exists w'. split; [ exact Hrun | ].
  apply (Hlog "#app" (Error "page.waitForSelector: Timeout exceeded.")); reflexivity.
Defined.


Lemma mobile_check_leaves_viewport_witness :
  exists a w',
    performEvaluation Z (labBrowser healthy) (labRegistry healthy) 200 labWorld
    = (Ok a, w')
    /\ viewport (page labWorld) = (1280, 720)
    /\ viewport (page w') = (375, 667).
Proof.
  destruct (proj1 (proj2 (mobile_check_leaves_viewport Z (labBrowser healthy)))
              200 labWorld) as (a & w' & Hrun & Hview).
  exists a, w'. splits; [ exact Hrun | reflexivity | ].
  destruct Hview as (evs & vp0 & _ & V); [ | exact V ].
  intros r Hin Hid. unfold labRegistry in Hrun. vm_compute in Hrun.
  injection Hrun as <- _. cbn [items] in Hin.
  repeat (destruct Hin as [<- | Hin];
          [ first [ discriminate Hid | (intros Hs; discriminate Hs) ] | ]).
  destruct Hin.
Defined.
